(** * GenerateMkDocsApi: a shallow embedding of tools/GenerateMkDocsApi.py

    The generator reads a Doxygen XML export (an index plus one detail
    record per compound) and writes one Markdown page per renderable
    compound together with four index pages.

    Conventions of the embedding.
    - A Python [str] is a [string]; every [ascii] stands for one code point
      below 256, so [str.strip], comparison and concatenation are exact on
      that range.
    - An [xml.etree.ElementTree.Element] is the record [Element]: tag,
      attribute dictionary, optional text, optional tail and the children in
      document order.
    - The input directory is read-only during a run and disjoint from the
      output directory; output file names are keys of a flat map. *)

From Stdlib Require Import String Ascii.
From stdpp Require Import gmap strings list pretty sorting.

Local Open Scope string_scope.
Local Open Scope list_scope.

(** ** Python string primitives *)

Module Py.

(** [str.isspace] on one code point below 256. *)
Definition isspace (c : ascii) : bool :=
  let n := nat_of_ascii c in
  (((9 <=? n) && (n <=? 13)) || ((28 <=? n) && (n <=? 32))
   || (n =? 133) || (n =? 160))%nat.

Fixpoint lstrip (s : string) : string :=
  match s with
  | String a s' => if isspace a then lstrip s' else s
  | EmptyString => EmptyString
  end.

Fixpoint rstrip (s : string) : string :=
  match s with
  | EmptyString => EmptyString
  | String a s' =>
      match rstrip s' with
      | EmptyString => if isspace a then EmptyString else String a EmptyString
      | r => String a r
      end
  end.

(** The line feed, written [\n] in the source. *)
Definition nl : string := String "010" EmptyString.

(** The double quote character. *)
Definition dq : string := String "034" EmptyString.

(** [s.strip()] *)
Definition strip (s : string) : string := lstrip (rstrip s).

(** [sep.join(parts)] *)
Definition join (sep : string) (parts : list string) : string :=
  String.concat sep parts.

(** Truthiness of a [str]. *)
Definition truthy (s : string) : bool :=
  match s with EmptyString => false | String _ _ => true end.

(** Truthiness of an [Optional[str]]. *)
Definition truthy_opt (o : option string) : bool :=
  match o with Some s => truthy s | None => false end.

(** [o or ""] for an [Optional[str]]. *)
Definition or_empty (o : option string) : string := default "" o.

(** What [if s: parts.append(s)] adds to [parts]. *)
Definition opt_part (o : option string) : list string :=
  if truthy_opt o then [or_empty o] else [].

(** [s.replace(a, b)] for one-character [a] and [b]. *)
Fixpoint replace_char (a b : ascii) (s : string) : string :=
  match s with
  | EmptyString => EmptyString
  | String c s' =>
      String (if Ascii.eqb c a then b else c) (replace_char a b s')
  end.

(** [str(n)] for a non-negative [int]. *)
Definition str_of_nat (n : nat) : string := pretty n.

(** The string ends with a line feed that no second line feed precedes. *)
Fixpoint ends_nl_once (s : string) : bool :=
  match s with
  | EmptyString => false
  | String a EmptyString => Ascii.eqb a "010"
  | String a (String b EmptyString) => Ascii.eqb b "010" && negb (Ascii.eqb a "010")
  | String _ s' => ends_nl_once s'
  end.

(** Strings of at least two characters that end with one line feed. *)
Definition closed_line (t : string) : Prop :=
  ends_nl_once t = true ∧ (2 ≤ String.length t)%nat.

(** Last character of a string, when there is one. *)
Fixpoint last_char (s : string) : option ascii :=
  match s with
  | EmptyString => None
  | String a EmptyString => Some a
  | String _ s' => last_char s'
  end.

End Py.

(** ** ElementTree elements *)

Local Unset Elimination Schemes.
Inductive Element : Type := mkElement {
  tag : string;
  attrib : gmap string string;
  text : option string;
  tail : option string;
  children : list Element
}.
Local Set Elimination Schemes.

Module ET.

(** [elem.get(key, default)] *)
Definition get (e : Element) (key dflt : string) : string :=
  default dflt (attrib e !! key).

(** [elem.findall(t)] for a plain tag [t]: the direct children so tagged. *)
Definition findall (e : Element) (t : string) : list Element :=
  filter (λ c, tag c = t) (children e).

(** [elem.find(t)] *)
Definition find (e : Element) (t : string) : option Element :=
  head (findall e t).

(** [elem.findtext(t)] with the default [None]. *)
Definition findtext_opt (e : Element) (t : string) : option string :=
  match find e t with
  | Some c => Some (Py.or_empty (text c))
  | None => None
  end.

(** [elem.findtext(t, dflt)] *)
Definition findtext (e : Element) (t dflt : string) : string :=
  default dflt (findtext_opt e t).

(** The proper descendants of [e] in document order, as [.//] walks them. *)
Fixpoint descendants (e : Element) : list Element :=
  mjoin (map (λ c, c :: descendants c) (children e)).

(** [list(elem.itertext())] *)
Fixpoint itertext (e : Element) : list string :=
  Py.opt_part (text e)
  ++ mjoin (map (λ c, itertext c ++ Py.opt_part (tail c)) (children e)).

End ET.

(** ** Inline markup and lists *)

(** The line [_RenderList] emits for its [idx]-th item (counted from 1). *)
Definition list_line (ordered : bool) (idx : nat) (item_text : string) : string :=
  (if ordered then Py.str_of_nat idx +:+ "." else "-") +:+ " " +:+ item_text.

(** The lines of a list whose items have already been rendered, trimmed. *)
Definition list_lines (ordered : bool) (items : list string) : list string :=
  imap (λ i t, list_line ordered (S i) t) items.

(** What [_RenderInline] appends for a child, given the renderer of inline
    content [inl] and of lists [lst]. *)
Definition inline_child (inl : Element → string) (lst : Element → bool → string)
    (child : Element) : string :=
  let t := tag child in
  if bool_decide (t = "parameterlist" ∨ t = "simplesect") then ""
  else if bool_decide (t = "computeroutput" ∨ t = "tt") then "`" +:+ inl child +:+ "`"
  else if bool_decide (t = "bold") then "**" +:+ inl child +:+ "**"
  else if bool_decide (t = "emphasis") then "*" +:+ inl child +:+ "*"
  else if bool_decide (t = "ref") then inl child
  else if bool_decide (t = "ulink") then
    let label := inl child in
    let url := ET.get child "url" "" in
    if Py.truthy url then "[" +:+ label +:+ "](" +:+ url +:+ ")" else label
  else if bool_decide (t = "linebreak") then "  " +:+ Py.nl
  else if bool_decide (t = "itemizedlist") then Py.nl +:+ lst child false +:+ Py.nl
  else if bool_decide (t = "orderedlist") then Py.nl +:+ lst child true +:+ Py.nl
  else inl child.

(** [_RenderInline]. It calls [_RenderList] on list children, which calls it
    back on their items: the local [render_list] is [_RenderList] written
    over the children of [e], so that the recursion is structural
    ([RenderInline_parts] states it with [RenderList] itself). *)
Fixpoint RenderInline (elem : Element) : string :=
  let render_list (e : Element) (ordered : bool) : string :=
    Py.join Py.nl (list_lines ordered
         (omap (λ item, if bool_decide (tag item = "listitem")
                        then Some (Py.strip (RenderInline item)) else None)
               (children e))) in
  Py.join ""
    (Py.opt_part (text elem)
     ++ mjoin (map (λ child,
                  inline_child RenderInline render_list child
                  :: Py.opt_part (tail child))
               (children elem))).

(** [_RenderList] *)
Definition RenderList (elem : Element) (ordered : bool) : string :=
  Py.join Py.nl (list_lines ordered
         (map (λ item, Py.strip (RenderInline item)) (ET.findall elem "listitem"))).


(** ** The rendered text as a sequence of pieces

    [pieces] follows [_RenderInline] step by step, but keeps apart what is
    copied from the document ([Source]: a text or a tail) and what the
    renderer adds ([Markup]). *)

Inductive piece : Type :=
| Source (s : string)
| Markup (s : string).



Definition child_pieces (rec : Element → list piece) (child : Element) : list piece :=
  let t := tag child in
  if bool_decide (t = "parameterlist" ∨ t = "simplesect") then []
  else if bool_decide (t = "computeroutput" ∨ t = "tt") then
    Markup "`" :: rec child ++ [Markup "`"]
  else if bool_decide (t = "bold") then Markup "**" :: rec child ++ [Markup "**"]
  else if bool_decide (t = "emphasis") then Markup "*" :: rec child ++ [Markup "*"]
  else if bool_decide (t = "ref") then rec child
  else if bool_decide (t = "ulink") then
    let url := ET.get child "url" "" in
    if Py.truthy url then Markup "[" :: rec child ++ [Markup ("](" +:+ url +:+ ")")]
    else rec child
  else if bool_decide (t = "linebreak") then [Markup ("  " +:+ Py.nl)]
  else if bool_decide (t = "itemizedlist") then
    [Markup (Py.nl +:+ RenderList child false +:+ Py.nl)]
  else if bool_decide (t = "orderedlist") then
    [Markup (Py.nl +:+ RenderList child true +:+ Py.nl)]
  else rec child.

Fixpoint pieces (elem : Element) : list piece :=
  map Source (Py.opt_part (text elem))
  ++ mjoin (map (λ child, child_pieces pieces child ++ map Source (Py.opt_part (tail child)))
                (children elem)).



(** ** Block descriptions *)

(** [_RenderProgramlisting] *)
Definition RenderProgramlisting (elem : Element) : string :=
  let lines :=
    map (λ codeline, Py.rstrip (Py.join "" (ET.itertext codeline)))
        (ET.findall elem "codeline") in
  let code := Py.rstrip (Py.join Py.nl lines) in
  "```cpp" +:+ Py.nl +:+ code +:+ Py.nl +:+ "```".

(** What one child of a description appends to [paragraphs]. *)
Definition block_paragraphs (child : Element) : list string :=
  let t := tag child in
  if bool_decide (t = "para") then
    let txt := Py.strip (RenderInline child) in
    if Py.truthy txt then [txt] else []
  else if bool_decide (t = "programlisting") then [RenderProgramlisting child]
  else if bool_decide (t = "itemizedlist") then [RenderList child false]
  else if bool_decide (t = "orderedlist") then [RenderList child true]
  else [].

(** [_RenderDescription] *)
Definition RenderDescription (elem : option Element) : string :=
  match elem with
  | None => ""
  | Some e =>
      let paragraphs := mjoin (map block_paragraphs (children e)) in
      Py.join (Py.nl +:+ Py.nl) (filter (λ p, Py.truthy p) paragraphs)
  end.

(** ** Members *)

(** [_WrapCard] *)
Definition WrapCard (content : string) : string :=
  if Py.truthy content then
    Py.join Py.nl
      ["<div class=" +:+ Py.dq +:+ "snapi-api-card" +:+ Py.dq +:+ " markdown="
         +:+ Py.dq +:+ "1" +:+ Py.dq +:+ ">";
       Py.strip content;
       "</div>"]
  else "".

(** The two parts a non-empty prose block contributes: itself and a blank. *)
Definition prose_parts (s : string) : list string :=
  if Py.truthy s then [s; ""] else [].

(** The bullet of one enumerator, when it has a name. *)
Definition enum_value_line (enum_value : Element) : option string :=
  let value_name := Py.strip (ET.findtext enum_value "name" "") in
  let value_brief := RenderDescription (ET.find enum_value "briefdescription") in
  if Py.truthy value_name then
    if Py.truthy value_brief
    then Some ("- `" +:+ value_name +:+ "`: " +:+ value_brief)
    else Some ("- `" +:+ value_name +:+ "`")
  else None.

(** The list [values] of [_RenderEnum]. *)
Definition enum_values (member : Element) : list string :=
  omap enum_value_line (ET.findall member "enumvalue").

(** The list [parts] of [_RenderEnum] at its return. *)
Definition enum_parts (member : Element) : list string :=
  let nm := Py.strip (ET.findtext member "name" "") in
  let brief := RenderDescription (ET.find member "briefdescription") in
  let detailed := RenderDescription (ET.find member "detaileddescription") in
  let values := enum_values member in
  ["### `enum " +:+ nm +:+ "`"; ""]
  ++ prose_parts brief
  ++ prose_parts detailed
  ++ (match values with
      | [] => []
      | _ => ["**Values**"; ""; Py.join Py.nl values; ""]
      end).

(** [_RenderEnum] *)
Definition RenderEnum (member : Element) : string :=
  WrapCard (Py.join Py.nl (enum_parts member)).

(** The XPath [.//t[@kind='k']] from [detail]. *)
Definition descendants_of_kind (detail : Element) (t k : string) : list Element :=
  filter (λ d, tag d = t ∧ attrib d !! "kind" = Some k) (ET.descendants detail).

(** The XPath [.//parameterlist[@kind='param']/parameteritem] from [detail]. *)
Definition parameter_items (detail : Element) : list Element :=
  mjoin (map (λ pl, ET.findall pl "parameteritem")
             (descendants_of_kind detail "parameterlist" "param")).

(** The names of one [parameteritem]:
    [./parameternamelist/parametername] with a text, trimmed. *)
Definition parameter_item_names (item : Element) : list string :=
  omap (λ n, if Py.truthy_opt (text n) then Some (Py.strip (Py.or_empty (text n))) else None)
       (mjoin (map (λ nl, ET.findall nl "parametername")
                   (ET.findall item "parameternamelist"))).

(** The dictionary [descriptions] of [_ExtractParameters]: later entries
    overwrite earlier ones. *)
Definition parameter_descriptions (member : Element) : gmap string string :=
  match ET.find member "detaileddescription" with
  | None => ∅
  | Some detail =>
      foldl (λ descriptions item,
               let desc := RenderDescription (ET.find item "parameterdescription") in
               foldl (λ ds nm, <[nm := desc]> ds) descriptions
                     (parameter_item_names item))
            ∅ (parameter_items detail)
  end.

(** [param.findtext("declname") or param.findtext("defname") or ""] *)
Definition param_name (param : Element) : string :=
  let declname := ET.findtext_opt param "declname" in
  let defname := ET.findtext_opt param "defname" in
  if Py.truthy_opt declname then Py.or_empty declname
  else if Py.truthy_opt defname then Py.or_empty defname
  else "".

(** [_ExtractParameters] *)
Definition ExtractParameters (member : Element) : list (string * string) :=
  let descriptions := parameter_descriptions member in
  omap (λ param,
          let nm := param_name param in
          if Py.truthy nm then Some (nm, default "" (descriptions !! nm)) else None)
       (ET.findall member "param").

(** [_ExtractReturn] *)
Definition ExtractReturn (member : Element) : string :=
  match ET.find member "detaileddescription" with
  | None => ""
  | Some detail =>
      RenderDescription (head (descendants_of_kind detail "simplesect" "return"))
  end.

(** [_ExtractNotes] *)
Definition ExtractNotes (member : Element) : list string :=
  match ET.find member "detaileddescription" with
  | None => []
  | Some detail =>
      filter (λ t, Py.truthy t)
             (map (λ note, RenderDescription (Some note))
                  (descendants_of_kind detail "simplesect" "note"))
  end.

(** The local [signature] of [_RenderMember]. *)
Definition member_signature (member : Element) : string :=
  let definition := Py.strip (ET.findtext member "definition" "") in
  let args := Py.strip (ET.findtext member "argsstring" "") in
  if Py.truthy args then definition +:+ args
  else if Py.truthy definition then definition
  else Py.strip (ET.findtext member "name" "").

(** The bullet of one documented parameter. *)
Definition param_line (p : string * string) : string :=
  "- `" +:+ p.1 +:+ "`: " +:+ p.2.

(** The heading line of [_RenderMember]. *)
Definition member_heading (member : Element) : string :=
  "### `" +:+ member_signature member +:+ "`".

(** The list [parts] of [_RenderMember] at its return. *)
Definition member_parts (member : Element) : list string :=
  let brief := RenderDescription (ET.find member "briefdescription") in
  let detailed := RenderDescription (ET.find member "detaileddescription") in
  let params := ExtractParameters member in
  let returns := ExtractReturn member in
  let notes := ExtractNotes member in
  [member_heading member; ""]
  ++ prose_parts brief
  ++ prose_parts detailed
  ++ (match params with
      | [] => []
      | _ => ["**Parameters**"; ""] ++ map param_line params ++ [""]
      end)
  ++ (if Py.truthy returns then ["**Returns:** " +:+ returns; ""] else [])
  ++ (match notes with
      | [] => []
      | _ => ["**Notes**"; ""] ++ map (λ note, "- " +:+ note) notes ++ [""]
      end).

(** [_RenderMember] *)
Definition RenderMember (member : Element) : string :=
  WrapCard (Py.strip (Py.join Py.nl (member_parts member))).

(** The card [_RenderMembers] appends for one member. *)
Definition member_card (member : Element) : string :=
  if bool_decide (ET.get member "kind" "" = "enum")
  then RenderEnum member else RenderMember member.

(** [_RenderMembers] *)
Definition RenderMembers (members : list Element) : string :=
  Py.join Py.nl (filter (λ line, Py.truthy line) (map member_card members)).

(** ** Compound pages *)

(** Python's [str.title], a casing table of the Unicode database that the
    generator only reaches for section kinds outside its own table. *)
Class StrTitle := str_title : string → string.

Section Pages.
Context `{!StrTitle}.

(** The dictionary [titles] of [_SectionTitle]. *)
Definition titles : gmap string string :=
  list_to_map [
    ("public-func", "Public Functions");
    ("public-static-func", "Public Static Functions");
    ("public-attrib", "Public Members");
    ("public-static-attrib", "Public Static Members");
    ("public-type", "Public Types");
    ("protected-func", "Protected Functions");
    ("protected-attrib", "Protected Members");
    ("protected-type", "Protected Types");
    ("private-func", "Private Functions");
    ("private-attrib", "Private Members");
    ("private-type", "Private Types");
    ("friend", "Friends");
    ("define", "Macros");
    ("func", "Functions");
    ("var", "Variables");
    ("typedef", "Type Aliases");
    ("enum", "Enumerations")
  ].

(** [_SectionTitle] *)
Definition SectionTitle (kind : string) : string :=
  default (str_title (Py.replace_char "-" " " kind)) (titles !! kind).

(** What one [sectiondef] appends to [output] in [_RenderSections]. *)
Definition section_parts (section : Element) : list string :=
  let kind := ET.get section "kind" "" in
  let title := SectionTitle kind in
  let rendered := RenderMembers (ET.findall section "memberdef") in
  if Py.truthy rendered then ["## " +:+ title; ""; rendered; ""] else [].

(** [_RenderSections] *)
Definition RenderSections (compounddef : Element) : string :=
  Py.strip (Py.join Py.nl
              (mjoin (map section_parts (ET.findall compounddef "sectiondef")))).

(** The lines of [_RenderInner] for one tag and its label. *)
Definition inner_lines (compounddef : Element) (t label : string) : list string :=
  omap (λ inner,
          let nm := if Py.truthy_opt (text inner)
                    then Py.strip (Py.or_empty (text inner)) else "" in
          if Py.truthy nm then Some ("- **" +:+ label +:+ ":** " +:+ nm) else None)
       (ET.findall compounddef t).

(** [_RenderInner] *)
Definition RenderInner (compounddef : Element) : string :=
  Py.join Py.nl (inner_lines compounddef "innernamespace" "Namespace"
                 ++ inner_lines compounddef "innerclass" "Type").

End Pages.

(** ** The generator *)

(** One entry of the catalog (the dataclass [Compound]). *)
Record Compound : Type := mkCompound {
  refid : string;
  kind : string;
  name : string
}.

(** A file of the input directory: [ElementTree.parse] either yields the
    root element or raises. *)
Inductive xml_file : Type :=
| Parsed (root : Element)
| Unparsable.

Inductive error : Type :=
| FileNotFoundError (path : string)
| ParseError (path : string).

Inductive result (A : Type) : Type :=
| Ok (a : A)
| Raise (e : error).
Arguments Ok {A} a.
Arguments Raise {A} e.

(** What a run does to the output directory, in order. *)
Inductive event : Type :=
| EvRmtree
| EvMkdir
| EvWrite (file content : string).

(** The generator object and the two directories it works on: [out_dir] is
    [None] while the output directory does not exist. *)
Record State : Type := mkState {
  compounds : list Compound;
  xml_dir : gmap string xml_file;
  out_dir : option (gmap string string);
  trace : list event
}.

(** Computations that read and update the state and may raise. *)
Definition M (A : Type) : Type := State → result A * State.

#[global] Instance M_ret : MRet M := λ A a st, (Ok a, st).
#[global] Instance M_bind : MBind M := λ A B f m st,
  match m st with
  | (Ok a, st') => f a st'
  | (Raise e, st') => (Raise e, st')
  end.

Definition raise {A : Type} (e : error) : M A := λ st, (Raise e, st).
Definition gets {A : Type} (f : State → A) : M A := λ st, (Ok (f st), st).
Definition modify (f : State → State) : M unit := λ st, (Ok (), f st).

(** A [for] loop whose body may raise. *)
Fixpoint for_each {A : Type} (items : list A) (body : A → M unit) : M unit :=
  match items with
  | [] => mret ()
  | x :: rest => body x ;; for_each rest body
  end.

(** [ElementTree.parse(xml_dir / file).getroot()] *)
Definition parse (file : string) : M Element := λ st,
  match xml_dir st !! file with
  | Some (Parsed root) => (Ok root, st)
  | Some Unparsable => (Raise (ParseError file), st)
  | None => (Raise (FileNotFoundError file), st)
  end.

(** [(xml_dir / file).exists()] *)
Definition xml_exists (file : string) : M bool :=
  gets (λ st, bool_decide (is_Some (xml_dir st !! file))).

(** [(out_dir / file).write_text(content)] *)
Definition write_text (file content : string) : M unit := λ st,
  match out_dir st with
  | Some files =>
      (Ok (), mkState (compounds st) (xml_dir st)
                      (Some (<[file := content]> files))
                      (trace st ++ [EvWrite file content]))
  | None => (Raise (FileNotFoundError file), st)
  end.

(** The compound one [<compound>] entry of the index yields, if any. *)
Definition index_entry (compound : Element) : option Compound :=
  let k := ET.get compound "kind" "" in
  let r := ET.get compound "refid" "" in
  let name_elem := ET.find compound "name" in
  let nm := match name_elem with
            | Some e => if Py.truthy_opt (text e)
                        then Py.strip (Py.or_empty (text e)) else r
            | None => r
            end in
  if Py.truthy r then Some (mkCompound r k nm) else None.

(** [_LoadIndex] *)
Definition LoadIndex : M unit :=
  present ← xml_exists "index.xml";
  if negb present then raise (FileNotFoundError "index.xml")
  else
    root ← parse "index.xml";
    modify (λ st, mkState (compounds st ++ omap index_entry (ET.findall root "compound"))
                          (xml_dir st) (out_dir st) (trace st)).

(** [_PrepareOutput] *)
Definition PrepareOutput : M unit :=
  modify (λ st, mkState (compounds st) (xml_dir st) (Some ∅)
                        (trace st
                         ++ (if bool_decide (is_Some (out_dir st)) then [EvRmtree] else [])
                         ++ [EvMkdir])).

Section Generator.
Context `{!StrTitle}.

(** The page of a compound whose detail record is missing. *)
Definition placeholder_page (compound : Compound) : string :=
  "# " +:+ name compound +:+ Py.nl +:+ Py.nl
  +:+ "_Unable to locate XML for " +:+ refid compound +:+ "._" +:+ Py.nl.

(** The page of a compound whose record has no [compounddef]. *)
Definition empty_page (compound : Compound) : string :=
  "# " +:+ name compound +:+ Py.nl +:+ Py.nl
  +:+ "_Empty compound definition._" +:+ Py.nl.

(** The list [parts] of [_RenderCompound] at its return. *)
Definition compound_parts (compound : Compound) (compounddef : Element) : list string :=
  let title := if bool_decide (kind compound = "file")
               then "File `" +:+ name compound +:+ "`" else name compound in
  let brief := RenderDescription (ET.find compounddef "briefdescription") in
  let detailed := RenderDescription (ET.find compounddef "detaileddescription") in
  let contents := RenderInner compounddef in
  let members := RenderSections compounddef in
  ["# " +:+ title; ""]
  ++ prose_parts brief
  ++ prose_parts detailed
  ++ (if Py.truthy contents then ["## Contents"; ""; contents; ""] else [])
  ++ (if Py.truthy members then [members] else []).

(** [_RenderCompound] *)
Definition RenderCompound (compound : Compound) : M string :=
  let xml_path := refid compound +:+ ".xml" in
  present ← xml_exists xml_path;
  if negb present then mret (placeholder_page compound)
  else
    root ← parse xml_path;
    match ET.find root "compounddef" with
    | None => mret (empty_page compound)
    | Some compounddef =>
        mret (Py.strip (Py.join Py.nl (compound_parts compound compounddef)) +:+ Py.nl)
    end.

(** The kinds that get a page of their own. *)
Definition page_kinds : gset string :=
  {[ "class"; "struct"; "namespace"; "file"; "union"; "concept" ]}.

(** The kinds listed in the type index. *)
Definition type_kinds : gset string :=
  {[ "class"; "struct"; "union"; "concept" ]}.

(** The body of the loop of [_WriteCompoundPages]. *)
Definition write_page (compound : Compound) : M unit :=
  if bool_decide (kind compound ∈ page_kinds) then
    content ← RenderCompound compound;
    write_text (refid compound +:+ ".md") content
  else mret ().

(** [_WriteCompoundPages] *)
Definition WriteCompoundPages : M unit :=
  cs ← gets compounds;
  for_each cs write_page.

(** [sorted(items, key=lambda c: c.name)]: a stable sort by display name,
    written as an insertion sort. *)
Fixpoint insert_by_name (c : Compound) (sorted : list Compound) : list Compound :=
  match sorted with
  | [] => [c]
  | d :: rest =>
      if String.leb (name c) (name d) then c :: sorted
      else d :: insert_by_name c rest
  end.

Definition sorted_by_name (items : list Compound) : list Compound :=
  foldr insert_by_name [] items.

(** The local function [render_list] of [_WriteIndexes]. *)
Definition render_list (items : list Compound) : string :=
  let lines := map (λ item, "- [" +:+ name item +:+ "](" +:+ refid item +:+ ".md)") items in
  match lines with
  | [] => "_None_"
  | _ => Py.join Py.nl lines
  end.

Definition namespaces_of (cs : list Compound) : list Compound :=
  sorted_by_name (filter (λ c, kind c = "namespace") cs).
Definition types_of (cs : list Compound) : list Compound :=
  sorted_by_name (filter (λ c, kind c ∈ type_kinds) cs).
Definition files_of (cs : list Compound) : list Compound :=
  sorted_by_name (filter (λ c, kind c = "file") cs).

(** The overview page: the template of [_WriteIndexes] once
    [textwrap.dedent] has removed its margin and its blank last line. *)
Definition index_content (cs : list Compound) : string :=
  Py.join Py.nl [
    "# API Reference";
    "";
    "This section is generated from Doxygen XML output and rendered inside MkDocs.";
    "";
    "- **Namespaces:** " +:+ Py.str_of_nat (length (namespaces_of cs));
    "- **Types:** " +:+ Py.str_of_nat (length (types_of cs));
    "- **Files:** " +:+ Py.str_of_nat (length (files_of cs));
    "";
    "## Quick Index";
    "";
    "- [Namespaces](namespaces.md)";
    "- [Types](types.md)";
    "- [Files](files.md)"
  ] +:+ Py.nl.

Definition namespaces_content (cs : list Compound) : string :=
  "# Namespaces" +:+ Py.nl +:+ Py.nl +:+ render_list (namespaces_of cs) +:+ Py.nl.
Definition types_content (cs : list Compound) : string :=
  "# Types" +:+ Py.nl +:+ Py.nl +:+ render_list (types_of cs) +:+ Py.nl.
Definition files_content (cs : list Compound) : string :=
  "# Files" +:+ Py.nl +:+ Py.nl +:+ render_list (files_of cs) +:+ Py.nl.

(** [_WriteIndexes] *)
Definition WriteIndexes : M unit :=
  cs ← gets compounds;
  write_text "index.md" (index_content cs);;
  write_text "namespaces.md" (namespaces_content cs);;
  write_text "types.md" (types_content cs);;
  write_text "files.md" (files_content cs).

(** [Run] *)
Definition Run : M unit :=
  LoadIndex;;
  PrepareOutput;;
  WriteCompoundPages;;
  WriteIndexes.

(** [Main]: a fresh generator on the two directories, then [Run]. *)
Definition Main (xml : gmap string xml_file) (out : option (gmap string string))
  : result unit * State :=
  Run (mkState [] xml out []).

End Generator.

(** ** Vocabulary of the statements *)



(** The signature as the specification words it: definition and argument
    list when both are present, else the definition, else the name. *)
Definition spec_signature (member : Element) : string :=
  let definition := Py.strip (ET.findtext member "definition" "") in
  let args := Py.strip (ET.findtext member "argsstring" "") in
  if Py.truthy definition && Py.truthy args then definition +:+ args
  else if Py.truthy definition then definition
  else Py.strip (ET.findtext member "name" "").

(** The enumerators of an enumeration that have a name. *)
Definition named_enumerators (member : Element) : list Element :=
  filter (λ v, Py.truthy (Py.strip (ET.findtext v "name" "")))
         (ET.findall member "enumvalue").

(** The bullet of a named enumerator: its name, then a colon and its brief
    description when it has one. *)
Definition enumerator_bullet (enum_value : Element) : string :=
  let value_brief := RenderDescription (ET.find enum_value "briefdescription") in
  "- `" +:+ Py.strip (ET.findtext enum_value "name" "") +:+ "`"
  +:+ (if Py.truthy value_brief then ": " +:+ value_brief else "").




Definition is_write (ev : event) : bool :=
  match ev with EvWrite _ _ => true | _ => false end.

(** The files an event list writes, with their contents, in order. *)
Definition writes (evs : list event) : list (string * string) :=
  omap (λ ev, match ev with EvWrite f c => Some (f, c) | _ => None end) evs.

Definition write_event (w : string * string) : event := EvWrite w.1 w.2.

(** The directory after the writes [ws], from the files [files]. *)
Definition write_all (files : gmap string string) (ws : list (string * string))
  : gmap string string :=
  foldl (λ fs w, <[w.1 := w.2]> fs) files ws.

(** The events of [_PrepareOutput], from whether the directory exists. *)
Definition prepare_events (out : option (gmap string string)) : list event :=
  (if bool_decide (is_Some out) then [EvRmtree] else []) ++ [EvMkdir].

(** Display names in non-decreasing order of code points. *)
Definition name_le (c d : Compound) : Prop := String.le (name c) (name d).

Section Reading.
Context `{!StrTitle}.

(** The page [_RenderCompound] returns for [compound] when the input
    directory is [xml]. *)
Definition page (xml : gmap string xml_file) (compound : Compound) : result string :=
  (RenderCompound compound (mkState [] xml None [])).1.

(** The catalog [_LoadIndex] builds from the root of the index. *)
Definition catalog (root : Element) : list Compound :=
  omap index_entry (ET.findall root "compound").

(** The compounds that get a page, in catalog order. *)
Definition renderable (cs : list Compound) : list Compound :=
  filter (λ c, kind c ∈ page_kinds) cs.

Definition page_file (c : Compound) : string := refid c +:+ ".md".

(** The page writes of [_WriteCompoundPages] over [cs], up to the first
    page that raises, and how the loop ends. *)
Fixpoint page_writes (xml : gmap string xml_file) (cs : list Compound)
  : list (string * string) * result unit :=
  match cs with
  | [] => ([], Ok ())
  | c :: rest =>
      if bool_decide (kind c ∈ page_kinds) then
        match page xml c with
        | Ok content =>
            let '(ws, r) := page_writes xml rest in ((page_file c, content) :: ws, r)
        | Raise e => ([], Raise e)
        end
      else page_writes xml rest
  end.

(** The four writes of [_WriteIndexes]. *)
Definition index_writes (cs : list Compound) : list (string * string) :=
  [("index.md", index_content cs);
   ("namespaces.md", namespaces_content cs);
   ("types.md", types_content cs);
   ("files.md", files_content cs)].

(** All the writes of a run over the catalog [cs], and how it ends. *)
Definition run_writes (xml : gmap string xml_file) (cs : list Compound)
  : list (string * string) * result unit :=
  match page_writes xml cs with
  | (ws, Ok _) => (ws ++ index_writes cs, Ok ())
  | (ws, Raise e) => (ws, Raise e)
  end.

End Reading.

(** ** Vocabulary of the further statements *)

(** A block of a description that adds no paragraph, or only an empty one:
    a paragraph blank once trimmed, a list without items, or a block of a
    kind [_RenderDescription] has no branch for. *)
Definition blank_block (child : Element) : bool :=
  let t := tag child in
  if bool_decide (t = "para") then negb (Py.truthy (Py.strip (RenderInline child)))
  else if bool_decide (t = "programlisting") then false
  else if bool_decide (t = "itemizedlist" ∨ t = "orderedlist") then
    match ET.findall child "listitem" with [] => true | _ => false end
  else true.

(** The identity keys of the index entries, in index order. *)
Definition entry_refids (root : Element) : list string :=
  map (λ entry, ET.get entry "refid" "") (ET.findall root "compound").

(** The first line of every card. *)
Definition card_open : string :=
  "<div class=" +:+ Py.dq +:+ "snapi-api-card" +:+ Py.dq +:+ " markdown="
  +:+ Py.dq +:+ "1" +:+ Py.dq +:+ ">".

(** The nested compounds tagged [t] whose text is not blank. *)
Definition named_inner (compounddef : Element) (t : string) : list Element :=
  filter (λ inner, Py.truthy (Py.strip (Py.or_empty (text inner))))
         (ET.findall compounddef t).

(** The line of the Contents list for one nested compound. *)
Definition inner_line (label : string) (inner : Element) : string :=
  "- **" +:+ label +:+ ":** " +:+ Py.strip (Py.or_empty (text inner)).

(** ** Sample documents *)

Module Sample.

(** An element without attributes and without tail. *)
Definition el (t : string) (tx : option string) (cs : list Element) : Element :=
  mkElement t ∅ tx None cs.

(** An element whose only attribute is its kind. *)
Definition elk (t k : string) (tx : option string) (cs : list Element) : Element :=
  mkElement t {[ "kind" := k ]} tx None cs.

(** The same element followed by the tail [s]. *)
Definition with_tail (e : Element) (s : string) : Element :=
  mkElement (tag e) (attrib e) (text e) (Some s) (children e).

(** A function documented by its argument list and name only. *)
Definition args_only : Element :=
  elk "memberdef" "function" None
    [el "argsstring" (Some "(int)") []; el "name" (Some "f") []].

(** A member with no metadata at all. *)
Definition bare_member : Element := el "memberdef" None [].


(** A paragraph with bold text, an unknown inline element and a suppressed one. *)
Definition mixed_para : Element :=
  el "para" (Some "See ")
    [with_tail (el "bold" (Some "this") []) " and ";
     with_tail (el "blink" (Some "that") []) ".";
     el "simplesect" (Some "hidden") []].


(** An enumeration whose enumerators carry no description. *)
Definition plain_enum : Element :=
  elk "memberdef" "enum" None
    [el "name" (Some "Color") [];
     el "enumvalue" None [el "name" (Some "Red") []];
     el "enumvalue" None [el "name" (Some "Blue") []]].

(** An enumeration with one annotated and one bare enumerator. *)
Definition mixed_enum : Element :=
  elk "memberdef" "enum" None
    [el "name" (Some "Color") [];
     el "enumvalue" None [el "name" (Some "Red") []];
     el "enumvalue" None
       [el "name" (Some "Blue") [];
        el "briefdescription" None [el "para" (Some "sky") []]]].

(** A function with two parameters, the second one annotated. *)
Definition two_params : Element :=
  elk "memberdef" "function" None
    [el "definition" (Some "void Spin") [];
     el "argsstring" (Some "(int a, int b)") [];
     el "name" (Some "Spin") [];
     el "param" None [el "declname" (Some "a") []];
     el "param" None [el "type" (Some "int") []];
     el "param" None [el "declname" (Some "b") []];
     el "detaileddescription" None
       [el "para" None
          [elk "parameterlist" "param" None
             [el "parameteritem" None
                [el "parameternamelist" None [el "parametername" (Some "b") []];
                 el "parameterdescription" None [el "para" (Some "speed") []]]]]]].

(** A description with a paragraph and a block of unknown kind. *)
Definition odd_block : Element := el "table" (Some "cells") [].

(** The index of the scenario: a namespace, a type, and an entry without
    identity key. *)
Definition index_root : Element :=
  el "doxygenindex" None
    [mkElement "compound" {[ "kind" := "namespace"; "refid" := "n1" ]} None None
       [el "name" (Some "Widgets") []];
     mkElement "compound" {[ "kind" := "class"; "refid" := "t1" ]} None None
       [el "name" (Some "Widgets::Gear") []];
     mkElement "compound" {[ "kind" := "class"; "refid" := "" ]} None None
       [el "name" (Some "Zed") []];
     mkElement "compound" {[ "kind" := "file"; "refid" := "x9" ]} None None []].

(** The detail record of the type [t1]. *)
Definition gear_record : Element :=
  el "doxygen" None
    [el "compounddef" None
       [elk "sectiondef" "public-func" None
          [elk "memberdef" "function" None
             [el "definition" (Some "void Widgets::Gear::Spin") [];
              el "argsstring" (Some "()") [];
              el "name" (Some "Spin") [];
              el "briefdescription" None [el "para" (Some "Spins the gear.") []]]]]].

(** An input directory with the index and the record of [t1] only. *)
Definition xml : gmap string xml_file :=
  {[ "index.xml" := Parsed index_root; "t1.xml" := Parsed gear_record ]}.

(** An input directory without index. *)
Definition no_index : gmap string xml_file :=
  {[ "t1.xml" := Parsed gear_record ]}.

(** An input directory whose index cannot be parsed. *)
Definition broken_index : gmap string xml_file :=
  {[ "index.xml" := Unparsable ]}.


(** A detail record without [compounddef]. *)
Definition hollow_record : Element := el "doxygen" None [].

(** An input directory where the record of [t1] has no [compounddef]. *)
Definition hollow : gmap string xml_file :=
  {[ "index.xml" := Parsed index_root; "t1.xml" := Parsed hollow_record ]}.


(** [str.title] on the ASCII letters, enough for the kinds of the samples. *)
Definition title_char (start : bool) (c : ascii) : ascii :=
  let n := nat_of_ascii c in
  if start then (if ((97 <=? n) && (n <=? 122))%nat then ascii_of_nat (n - 32) else c)
  else (if ((65 <=? n) && (n <=? 90))%nat then ascii_of_nat (n + 32) else c).

Definition is_letter (c : ascii) : bool :=
  let n := nat_of_ascii c in
  (((65 <=? n) && (n <=? 90)) || ((97 <=? n) && (n <=? 122)))%nat.

Fixpoint title_from (start : bool) (s : string) : string :=
  match s with
  | EmptyString => EmptyString
  | String c s' => String (title_char start c) (title_from (negb (is_letter c)) s')
  end.

Definition ascii_title : StrTitle := title_from true.

End Sample.

(** * Properties *)

#[global] Arguments Py.join : simpl never.
#[global] Arguments Py.strip : simpl never.

(** ** Strings *)

Module PyFacts.
Import Py.

Lemma app_cons a s t : String a s +:+ t = String a (s +:+ t).
Proof. reflexivity. Qed.

Lemma app_empty_l s : "" +:+ s = s.
Proof. reflexivity. Qed.

Lemma app_empty_r s : s +:+ "" = s.
Proof. induction s as [|a s IH]; [done|]. by rewrite app_cons, IH. Qed.

Lemma app_assoc s t u : (s +:+ t) +:+ u = s +:+ (t +:+ u).
Proof. induction s as [|a s IH]; [done|]. by rewrite !app_cons, IH. Qed.

Lemma app_eq_empty s t : s +:+ t = "" → s = "" ∧ t = "".
Proof. destruct s; [done|]. by rewrite app_cons. Qed.

Lemma truthy_true s : truthy s = true ↔ s ≠ "".
Proof. by destruct s. Qed.

Lemma truthy_false s : truthy s = false ↔ s = "".
Proof. by destruct s. Qed.

Lemma truthy_app_l s t : truthy s = true → truthy (s +:+ t) = true.
Proof. by destruct s. Qed.

Lemma truthy_app_r s t : truthy t = true → truthy (s +:+ t) = true.
Proof. destruct s; [done|]. by rewrite app_cons. Qed.


(** The last character of a concatenation is that of its right part,
    unless the right part is empty. *)
Lemma last_char_app s a t : last_char (s +:+ String a t) = last_char (String a t).
Proof.
  induction s as [|b s IH]; [done|].
  rewrite app_cons. simpl last_char at 1.
  destruct (s +:+ String a t) eqn:E; [|done].
  by destruct s.
Qed.

Lemma last_char_snoc s a : last_char (s +:+ String a "") = Some a.
Proof. by rewrite last_char_app. Qed.

Lemma last_char_cons a s b : last_char s = Some b → last_char (String a s) = Some b.
Proof. by destruct s. Qed.

Lemma ends_nl_once_snoc s :
  last_char s ≠ Some "010"%char → ends_nl_once (s +:+ nl) = true.
Proof.
  induction s as [|a s IH]; [done|]. intros Hl.
  destruct s as [|b s].
  - simpl in *. destruct (Ascii.eqb_spec a "010"); [congruence|done].
  - rewrite app_cons. specialize (IH Hl).
    rewrite app_cons in IH |- *. destruct s; [|exact IH].
    exact IH.
Qed.

Lemma ends_nl_once_cons a u :
  (2 ≤ String.length u)%nat → ends_nl_once (String a u) = ends_nl_once u.
Proof. destruct u as [|b [|c u]]; simpl; (lia || done). Qed.

Lemma length_app s t :
  String.length (s +:+ t) = (String.length s + String.length t)%nat.
Proof. induction s as [|a s IH]; [done|]. rewrite app_cons. simpl. by rewrite IH. Qed.

(** A closed line stays closed behind any prefix. *)
Lemma closed_line_app s t : closed_line t → closed_line (s +:+ t).
Proof.
  intros [Ht Hlen]. split; [|rewrite length_app; lia].
  induction s as [|a s IH]; [done|].
  rewrite app_cons, ends_nl_once_cons; [done|]. rewrite length_app. lia.
Qed.

Lemma closed_line_ends t : closed_line t → ends_nl_once t = true.
Proof. by intros []. Qed.

(** [rstrip] leaves no white space at the end. *)
Lemma rstrip_last s a : last_char (rstrip s) = Some a → isspace a = false.
Proof.
  induction s as [|b s IH]; [done|]. simpl.
  destruct (rstrip s) as [|c r] eqn:E.
  - destruct (isspace b) eqn:Hb; simpl; [done|]. by intros [= <-].
  - intros Hl. apply IH. exact Hl.
Qed.

(** [lstrip] keeps the end of what it leaves. *)
Lemma lstrip_last s a : last_char (lstrip s) = Some a → last_char s = Some a.
Proof.
  induction s as [|b s IH]; [done|]. simpl lstrip.
  destruct (isspace b); [|done].
  intros Hl. apply last_char_cons. by apply IH.
Qed.

Lemma strip_last s a : last_char (strip s) = Some a → isspace a = false.
Proof. intros Hl. by apply (rstrip_last s), lstrip_last. Qed.

Lemma strip_last_not_nl s : last_char (strip s) ≠ Some "010"%char.
Proof. intros Hl. by apply strip_last in Hl. Qed.

(** A string that starts with a visible character keeps it when trimmed. *)
Lemma rstrip_cons a s : isspace a = false → rstrip (String a s) = String a (rstrip s).
Proof. intros Ha. simpl. rewrite Ha. by destruct (rstrip s). Qed.

Lemma strip_cons a s : isspace a = false → strip (String a s) = String a (rstrip s).
Proof. intros Ha. unfold strip. rewrite rstrip_cons by done. simpl. by rewrite Ha. Qed.

Lemma join_cons sep x y l : join sep (x :: y :: l) = x +:+ sep +:+ join sep (y :: l).
Proof. reflexivity. Qed.

Lemma join_singleton sep x : join sep [x] = x.
Proof. reflexivity. Qed.



(** A joined list starts like its first part, when more parts follow. *)
Lemma join_head sep a x y l : ∃ r, join sep (String a x :: y :: l) = String a r.
Proof. rewrite join_cons, app_cons. eauto. Qed.

End PyFacts.

(** ** Element trees *)



Lemma findall_cons t a tx tl c cs w :
  ET.findall (mkElement t a tx tl (c :: cs)) w
  = (if bool_decide (tag c = w) then [c] else []) ++ ET.findall (mkElement t a tx tl cs) w.
Proof.
  unfold ET.findall. simpl. rewrite filter_cons.
  destruct (decide (tag c = w)).
  - by rewrite bool_decide_eq_true_2.
  - by rewrite bool_decide_eq_false_2.
Qed.

(** ** Inline markup *)















Example mixed_para_pieces :
  pieces Sample.mixed_para
  = [Source "See "; Markup "**"; Source "this"; Markup "**"; Source " and ";
     Source "that"; Source "."]
  ∧ ET.itertext Sample.mixed_para
    = ["See "; "this"; " and "; "that"; "."; "hidden"].
Proof. by vm_compute. Qed.

(** ** Members *)

Lemma omap_if_truthy {A : Type} (cond : A → bool) (f : A → string) (l : list A) :
  omap (λ x, if cond x then Some (f x) else None) l = map f (filter (λ x, cond x) l).
Proof.
  induction l as [|x l IH]; [done|]. rewrite filter_cons. simpl.
  destruct (cond x); simpl; [f_equal|]; exact IH.
Qed.

Lemma WrapCard_nonempty content : content ≠ "" → WrapCard content ≠ "".
Proof. intros Hc. unfold WrapCard. by destruct content. Qed.

Lemma WrapCard_empty : WrapCard "" = "".
Proof. reflexivity. Qed.

(** The heading of a member starts the card and survives the trimming. *)
Lemma member_parts_head member :
  ∃ rest, member_parts member = member_heading member :: "" :: rest.
Proof. unfold member_parts. simpl. eauto. Qed.

Lemma member_heading_nonempty member : member_heading member ≠ "".
Proof. done. Qed.

Lemma RenderMember_nonempty member : RenderMember member ≠ "".
Proof.
  unfold RenderMember. apply WrapCard_nonempty.
  destruct (member_parts_head member) as [rest ->].
  unfold member_heading.
  rewrite PyFacts.join_cons, !PyFacts.app_cons, PyFacts.strip_cons; done.
Qed.

Lemma RenderEnum_nonempty member : RenderEnum member ≠ "".
Proof. unfold RenderEnum, enum_parts. apply WrapCard_nonempty. done. Qed.

Lemma member_signature_empty member :
  member_signature member = "" ↔
  Py.strip (ET.findtext member "definition" "") = ""
  ∧ Py.strip (ET.findtext member "argsstring" "") = ""
  ∧ Py.strip (ET.findtext member "name" "") = "".
Proof.
  unfold member_signature.
  destruct (Py.strip (ET.findtext member "argsstring" "")) as [|a args];
    destruct (Py.strip (ET.findtext member "definition" "")) as [|d def]; simpl;
    rewrite ?PyFacts.app_cons, ?PyFacts.app_empty_l; split; intros; destruct_and?; done.
Qed.

(** C2, as the code has it. The signature of a member is the definition
    followed by the argument list whenever the argument list is not empty,
    also when there is no definition; otherwise the definition when it is not
    empty; otherwise the trimmed declared name. It differs from the
    preference order of the specification exactly where an argument list
    comes without a definition, and it is empty exactly when all three are;
    the heading line and the rendered card are never empty. *)
Theorem member_signature_choice (member : Element) :
  let definition := Py.strip (ET.findtext member "definition" "") in
  let args := Py.strip (ET.findtext member "argsstring" "") in
  let nm := Py.strip (ET.findtext member "name" "") in
  member_signature member
  = (if Py.truthy args then definition +:+ args
     else if Py.truthy definition then definition else nm)
  ∧ member_signature member
    = (if Py.truthy args && negb (Py.truthy definition) then args
       else spec_signature member)
  ∧ (member_signature member = "" ↔ definition = "" ∧ args = "" ∧ nm = "")
  ∧ member_heading member = "### `" +:+ member_signature member +:+ "`"
  ∧ member_heading member ≠ ""
  ∧ RenderMember member ≠ "".
Proof.
  intros definition args nm. split_and!.
  - reflexivity.
  - unfold member_signature, spec_signature. fold definition args.
    destruct (Py.truthy args), (Py.truthy definition) eqn:Hd; simpl; try done.
    by apply PyFacts.truthy_false in Hd as ->.
  - apply member_signature_empty.
  - reflexivity.
  - apply member_heading_nonempty.
  - apply RenderMember_nonempty.
Qed.

(** C2 in the words of the specification does not hold: with an argument
    list and a name but no definition the heading shows the argument list
    alone, not the name; and with no metadata at all the signature is empty. *)
Lemma member_signature_not_spec :
  member_signature Sample.args_only = "(int)"
  ∧ spec_signature Sample.args_only = "f"
  ∧ member_signature Sample.bare_member = "".
Proof. by vm_compute. Qed.

(** ** Enumerations *)

Lemma enum_values_eq member :
  enum_values member = map enumerator_bullet (named_enumerators member).
Proof.
  unfold enum_values, named_enumerators.
  rewrite <- (omap_if_truthy (λ v, Py.truthy (Py.strip (ET.findtext v "name" "")))).
  apply list_omap_ext, Forall2_same_length_lookup_2; [done|].
  intros i v ? Hv ?; simplify_eq. unfold enum_value_line, enumerator_bullet.
  destruct (Py.truthy (Py.strip (ET.findtext v "name" ""))); [|done].
  destruct (Py.truthy (RenderDescription (ET.find v "briefdescription"))); [done|].
  by rewrite !PyFacts.app_empty_r.
Qed.

(** C5, as the code has it. The heading of an enumeration is
    [enum <name>]; the Values block has one bullet per enumerator that has a
    name, the name followed by a colon and the brief description exactly when
    that description is not empty; and the block is left out exactly when no
    enumerator has a name, whether or not any of them is annotated. *)
Theorem RenderEnum_values (member : Element) :
  let nm := Py.strip (ET.findtext member "name" "") in
  let bullets := map enumerator_bullet (named_enumerators member) in
  RenderEnum member = WrapCard (Py.join Py.nl (enum_parts member))
  ∧ enum_values member = bullets
  ∧ enum_parts member
    = ["### `enum " +:+ nm +:+ "`"; ""]
      ++ prose_parts (RenderDescription (ET.find member "briefdescription"))
      ++ prose_parts (RenderDescription (ET.find member "detaileddescription"))
      ++ (match named_enumerators member with
          | [] => []
          | _ => ["**Values**"; ""; Py.join Py.nl bullets; ""]
          end)
  ∧ Forall (λ v,
       enumerator_bullet v
       = "- `" +:+ Py.strip (ET.findtext v "name" "") +:+ "`"
         +:+ (if Py.truthy (RenderDescription (ET.find v "briefdescription"))
              then ": " +:+ RenderDescription (ET.find v "briefdescription")
              else ""))
       (named_enumerators member).
Proof.
  intros nm bullets. split_and!.
  - reflexivity.
  - apply enum_values_eq.
  - unfold enum_parts. rewrite enum_values_eq. fold bullets nm.
    do 3 f_equal. subst bullets. by destruct (named_enumerators member).
  - by apply Forall_forall.
Qed.

(** C5 in the words of the specification does not hold: an enumeration
    none of whose enumerators is annotated still gets its Values block, with
    bare names. *)
Lemma plain_enum_has_values :
  Forall (λ v, RenderDescription (ET.find v "briefdescription") = "")
         (ET.findall Sample.plain_enum "enumvalue")
  ∧ enum_parts Sample.plain_enum
    = ["### `enum Color`"; ""; "**Values**"; ""; "- `Red`" +:+ Py.nl +:+ "- `Blue`"; ""].
Proof. split; [by repeat constructor|by vm_compute]. Qed.

Example mixed_enum_values :
  enum_values Sample.mixed_enum = ["- `Red`"; "- `Blue`: sky"].
Proof. by vm_compute. Qed.

(** ** Parameters *)






Example two_params_bullets :
  ExtractParameters Sample.two_params = [("a", ""); ("b", "speed")].
Proof. by vm_compute. Qed.

(** ** Kinds without a branch of their own *)









(** ** The run *)

Section RunFacts.
Context `{!StrTitle}.

Lemma State_eta st :
  mkState (compounds st) (xml_dir st) (out_dir st) (trace st) = st.
Proof. by destruct st. Qed.

(** [_RenderCompound] only reads the input directory. *)
Lemma RenderCompound_reads compound st :
  RenderCompound compound st = (page (xml_dir st) compound, st).
Proof.
  unfold page, RenderCompound, mbind, M_bind, xml_exists, gets, parse, mret, M_ret.
  simpl. destruct (xml_dir st !! (refid compound +:+ ".xml")) as [[root|]|] eqn:E;
    simpl; rewrite ?E; simpl; [|done..].
  by destruct (ET.find root "compounddef").
Qed.

(** The page of a compound, by what the input directory holds for it. *)
Lemma page_cases xml compound :
  page xml compound
  = match xml !! (refid compound +:+ ".xml") with
    | None => Ok (placeholder_page compound)
    | Some Unparsable => Raise (ParseError (refid compound +:+ ".xml"))
    | Some (Parsed root) =>
        match ET.find root "compounddef" with
        | None => Ok (empty_page compound)
        | Some compounddef =>
            Ok (Py.strip (Py.join Py.nl (compound_parts compound compounddef))
                +:+ Py.nl)
        end
    end.
Proof.
  unfold page, RenderCompound, mbind, M_bind, xml_exists, gets, parse, mret, M_ret.
  simpl. destruct (xml !! (refid compound +:+ ".xml")) as [[root|]|] eqn:E;
    simpl; rewrite ?E; simpl; [|done..].
  by destruct (ET.find root "compounddef").
Qed.


Lemma write_page_reads compound st :
  write_page compound st
  = if bool_decide (kind compound ∈ page_kinds) then
      match page (xml_dir st) compound with
      | Ok content => write_text (page_file compound) content st
      | Raise e => (Raise e, st)
      end
    else (Ok (), st).
Proof.
  unfold write_page. case_bool_decide; [|done].
  unfold mbind, M_bind. rewrite RenderCompound_reads.
  by destruct (page (xml_dir st) compound).
Qed.





(** The loop over the catalog, run from a state whose output directory
    exists, performs the writes of [page_writes]. *)
Lemma for_each_write_page cs st files :
  out_dir st = Some files →
  for_each cs write_page st
  = ((page_writes (xml_dir st) cs).2,
     mkState (compounds st) (xml_dir st)
             (Some (write_all files (page_writes (xml_dir st) cs).1))
             (trace st ++ map write_event (page_writes (xml_dir st) cs).1)).
Proof.
  revert st files. induction cs as [|c cs IH]; intros st files Hout.
  - simpl. rewrite app_nil_r, <- Hout. by rewrite State_eta.
  - simpl. unfold mbind, M_bind. rewrite write_page_reads.
    case_bool_decide.
    + destruct (page (xml_dir st) c) as [content|e] eqn:Ec.
      * unfold write_text at 1. rewrite Hout.
        erewrite IH by done. simpl.
        destruct (page_writes (xml_dir st) cs) as [ws r]. simpl.
        by rewrite <- app_assoc.
      * simpl. rewrite app_nil_r, <- Hout. by rewrite State_eta.
    + by apply IH.
Qed.

Lemma WriteIndexes_writes st files :
  out_dir st = Some files →
  WriteIndexes st
  = (Ok (),
     mkState (compounds st) (xml_dir st)
             (Some (write_all files (index_writes (compounds st))))
             (trace st ++ map write_event (index_writes (compounds st)))).
Proof.
  intros Hout. unfold WriteIndexes, mbind, M_bind, gets, write_text. simpl.
  rewrite Hout. simpl. by rewrite <- !app_assoc.
Qed.

(** A run, read as a function of the two directories. *)
Lemma Main_reading xml out :
  Main xml out
  = match xml !! "index.xml" with
    | None => (Raise (FileNotFoundError "index.xml"), mkState [] xml out [])
    | Some Unparsable => (Raise (ParseError "index.xml"), mkState [] xml out [])
    | Some (Parsed root) =>
        ((run_writes xml (catalog root)).2,
         mkState (catalog root) xml
                 (Some (write_all ∅ (run_writes xml (catalog root)).1))
                 (prepare_events out
                  ++ map write_event (run_writes xml (catalog root)).1))
    end.
Proof.
  unfold Main, Run, LoadIndex, mbind, M_bind, xml_exists, gets, parse. simpl.
  destruct (xml !! "index.xml") as [[root|]|] eqn:E; simpl; rewrite ?E; [|done..].
  unfold WriteCompoundPages, mbind, M_bind, gets. simpl.
  erewrite for_each_write_page by done. simpl.
  fold (catalog root). unfold run_writes.
  destruct (page_writes xml (catalog root)) as [ws [[]|e]]; simpl.
  - erewrite WriteIndexes_writes by done. simpl.
    unfold prepare_events, write_all. by rewrite map_app, foldl_app, !app_assoc.
  - done.
Qed.

End RunFacts.

(** ** A missing index, a missing record *)

Section Failures.
Context `{!StrTitle}.

(** C3. When the input directory has no index, the run raises and
    leaves the state as it found it: the output directory is neither
    cleared nor created, and nothing is written. *)
Theorem missing_index_aborts (st : State) :
  xml_dir st !! "index.xml" = None →
  LoadIndex st = (Raise (FileNotFoundError "index.xml"), st)
  ∧ Run st = (Raise (FileNotFoundError "index.xml"), st).
Proof.
  intros E.
  assert (LoadIndex st = (Raise (FileNotFoundError "index.xml"), st)) as Hload.
  { unfold LoadIndex, mbind, M_bind, xml_exists, gets. simpl. by rewrite E. }
  split; [exact Hload|].
  unfold Run, mbind, M_bind. by rewrite Hload.
Qed.


End Failures.

Lemma missing_index_aborts_witness :
  let st := mkState [] Sample.no_index (Some {[ "old.md" := "kept" ]}) [] in
  Run (H := Sample.ascii_title) st = (Raise (FileNotFoundError "index.xml"), st).
Proof.
  intros st.
  exact (proj2 (missing_index_aborts (H := Sample.ascii_title) st eq_refl)).
Defined.


(** ** Trailing newlines *)

Section Newlines.
Context `{!StrTitle}.
Import PyFacts.

Lemma writes_app evs evs' : writes (evs ++ evs') = writes evs ++ writes evs'.
Proof. apply omap_app. Qed.

Lemma writes_write_events ws : writes (map write_event ws) = ws.
Proof. induction ws as [|[f c] ws IH]; [done|]. simpl. f_equal. exact IH. Qed.

Lemma writes_prepare out : writes (prepare_events out) = [].
Proof. unfold prepare_events. by destruct (bool_decide _). Qed.

Lemma writes_run_trace out ws :
  writes (prepare_events out ++ map write_event ws) = ws.
Proof. by rewrite writes_app, writes_prepare, writes_write_events. Qed.

Lemma closed_line_md : Py.closed_line (".md)" +:+ Py.nl).
Proof. split; [done|simpl; lia]. Qed.

Lemma closed_line_bullets (items : list Compound) :
  items ≠ [] →
  Py.closed_line
    (Py.join Py.nl
       (map (λ item, "- [" +:+ name item +:+ "](" +:+ refid item +:+ ".md)") items)
     +:+ Py.nl).
Proof.
  induction items as [|c [|d items] IH]; [done| |]; intros _.
  - simpl map. rewrite join_singleton, !app_assoc.
    do 4 apply closed_line_app. apply closed_line_md.
  - rewrite !map_cons, join_cons, !app_assoc.
    do 6 apply closed_line_app. by apply IH.
Qed.

Lemma closed_line_render_list items : Py.closed_line (render_list items +:+ Py.nl).
Proof.
  unfold render_list. destruct items as [|c items].
  - split; [done|simpl; lia].
  - by apply (closed_line_bullets (c :: items)).
Qed.

Lemma index_content_closed cs : Py.closed_line (index_content cs).
Proof.
  unfold index_content. rewrite !join_cons, join_singleton, !app_assoc.
  repeat first [ solve [split; [reflexivity|simpl; lia]] | apply closed_line_app ].
Qed.

Lemma index_pages_end_nl cs :
  Forall (λ w, Py.ends_nl_once w.2 = true) (index_writes cs).
Proof.
  unfold index_writes. rewrite !Forall_cons, Forall_nil.
  split_and!; [..|done]; apply closed_line_ends.
  - apply index_content_closed.
  - do 3 apply closed_line_app. apply closed_line_render_list.
  - do 3 apply closed_line_app. apply closed_line_render_list.
  - do 3 apply closed_line_app. apply closed_line_render_list.
Qed.

Lemma page_ends_nl xml compound content :
  page xml compound = Ok content → Py.ends_nl_once content = true.
Proof.
  rewrite page_cases.
  destruct (xml !! (refid compound +:+ ".xml")) as [[root|]|]; [| done |].
  - destruct (ET.find root "compounddef") as [compounddef|]; intros [= <-].
    + apply ends_nl_once_snoc, strip_last_not_nl.
    + apply closed_line_ends. unfold empty_page.
      do 4 apply closed_line_app. split; [done|simpl; lia].
  - intros [= <-]. apply closed_line_ends. unfold placeholder_page.
    do 6 apply closed_line_app. split; [done|simpl; lia].
Qed.

Lemma page_writes_end_nl xml cs :
  Forall (λ w, Py.ends_nl_once w.2 = true) (page_writes xml cs).1.
Proof.
  induction cs as [|c cs IH]; [constructor|]. simpl.
  case_bool_decide; [|exact IH].
  destruct (page xml c) as [content|e] eqn:E; [|constructor].
  destruct (page_writes xml cs) as [ws r]. simpl in *.
  constructor; [by eapply page_ends_nl|exact IH].
Qed.

(** C8. Every file a run writes, the page of each compound (placeholder
    pages included) and the four index files, has a content that ends with
    one line feed which no other line feed precedes. *)
Theorem written_files_end_with_one_newline
    (xml : gmap string xml_file) (out : option (gmap string string)) :
  Forall (λ w, Py.ends_nl_once w.2 = true) (writes (trace (Main xml out).2)).
Proof.
  rewrite Main_reading.
  destruct (xml !! "index.xml") as [[root|]|]; simpl; [|constructor..].
  rewrite writes_run_trace. unfold run_writes.
  pose proof (page_writes_end_nl xml (catalog root)) as Hp.
  destruct (page_writes xml (catalog root)) as [ws [[]|e]]; simpl in *; [|done].
  apply Forall_app. split; [done|apply index_pages_end_nl].
Qed.

End Newlines.

(** ** The catalog and the index lists *)

Section Catalog.
Context `{!StrTitle}.

#[local] Instance name_le_trans : Transitive name_le.
Proof. intros c d e. unfold name_le. apply transitivity. Qed.

Lemma insert_by_name_perm c l : insert_by_name c l ≡ₚ c :: l.
Proof.
  induction l as [|d l IH]; [done|]. simpl.
  destruct (String.leb (name c) (name d)); [done|].
  rewrite IH. apply Permutation_swap.
Qed.

Lemma sorted_by_name_perm l : sorted_by_name l ≡ₚ l.
Proof.
  induction l as [|c l IH]; [done|]. simpl.
  by rewrite insert_by_name_perm, IH.
Qed.

Lemma insert_by_name_sorted c l :
  StronglySorted name_le l → StronglySorted name_le (insert_by_name c l).
Proof.
  induction 1 as [|d l Hl IH Hd]; simpl.
  - repeat constructor.
  - destruct (String.leb (name c) (name d)) eqn:E.
    + apply Is_true_true in E. constructor; [by constructor|].
      constructor; [exact E|].
      eapply Forall_impl; [exact Hd|]. intros e He. by trans d.
    + constructor; [exact IH|].
      rewrite insert_by_name_perm. constructor; [|exact Hd].
      destruct (total String.le (name c) (name d)) as [Hcd|Hdc]; [|exact Hdc].
      apply Is_true_true in Hcd. congruence.
Qed.

Lemma sorted_by_name_sorted l : StronglySorted name_le (sorted_by_name l).
Proof.
  induction l as [|c l IH]; [constructor|]. by apply insert_by_name_sorted.
Qed.

(** The sort is stable: compounds of one name keep their catalog order. *)
Lemma insert_by_name_stable n c l :
  filter (λ d, name d = n) (insert_by_name c l)
  = filter (λ d, name d = n) (c :: l).
Proof.
  induction l as [|d l IH]; [done|]. simpl.
  destruct (String.leb (name c) (name d)) eqn:E; [done|].
  rewrite (filter_cons _ d), IH, !filter_cons.
  destruct (decide (name d = n)) as [Hd|Hd], (decide (name c = n)) as [Hc|Hc];
    try done.
  assert (String.leb (name c) (name d) = true) as Hle; [|congruence].
  rewrite Hd, Hc. apply Is_true_true. by apply (reflexivity (R := String.le)).
Qed.

Lemma sorted_by_name_stable n l :
  filter (λ d, name d = n) (sorted_by_name l) = filter (λ d, name d = n) l.
Proof.
  induction l as [|c l IH]; [done|]. simpl.
  by rewrite insert_by_name_stable, !filter_cons, IH.
Qed.

Lemma index_entry_None entry :
  index_entry entry = None ↔ ET.get entry "refid" "" = "".
Proof. unfold index_entry. by destruct (ET.get entry "refid" ""). Qed.

Lemma index_entry_Some entry c :
  index_entry entry = Some c →
  refid c = ET.get entry "refid" "" ∧ refid c ≠ ""
  ∧ kind c = ET.get entry "kind" ""
  ∧ (match ET.find entry "name" with
     | None => True
     | Some n => Py.truthy_opt (text n) = false
     end → name c = refid c).
Proof.
  unfold index_entry.
  destruct (ET.get entry "refid" "") as [|a r] eqn:E; [done|].
  simpl. intros [= <-]. simpl. split_and!; try done.
  destruct (ET.find entry "name") as [n|]; [|done]. by intros ->.
Qed.

Lemma catalog_refids root : Forall (λ c, refid c ≠ "") (catalog root).
Proof.
  apply Forall_forall. intros c (entry & _ & Hc)%list_elem_of_omap.
  by apply index_entry_Some in Hc as (_ & ? & _).
Qed.

Lemma page_file_not_bare c : refid c ≠ "" → page_file c ≠ ".md".
Proof.
  intros Hr Heq. apply (f_equal String.length) in Heq.
  unfold page_file in Heq. rewrite PyFacts.length_app in Heq. simpl in Heq.
  destruct (refid c); [done|]. simpl in Heq. lia.
Qed.

Lemma page_writes_files xml cs :
  Forall (λ w, ∃ c, c ∈ cs ∧ w.1 = page_file c) (page_writes xml cs).1.
Proof.
  induction cs as [|c cs IH]; [constructor|]. simpl.
  assert (Forall (λ w, ∃ c', c' ∈ c :: cs ∧ w.1 = page_file c')
                 (page_writes xml cs).1) as IH'.
  { eapply Forall_impl; [exact IH|]. intros w (c' & Hin & Hw).
    exists c'. split; [by right|done]. }
  case_bool_decide; [|exact IH'].
  destruct (page xml c) as [content|e]; [|constructor].
  destruct (page_writes xml cs) as [ws r]. simpl in *.
  constructor; [|exact IH']. exists c. split; [by left|done].
Qed.

Lemma compounds_Main xml out :
  compounds (Main xml out).2
  = match xml !! "index.xml" with
    | Some (Parsed root) => catalog root
    | _ => []
    end.
Proof. rewrite Main_reading. by destruct (xml !! "index.xml") as [[|]|]. Qed.

Lemma writes_Main xml out :
  writes (trace (Main xml out).2)
  = match xml !! "index.xml" with
    | Some (Parsed root) => (run_writes xml (catalog root)).1
    | _ => []
    end.
Proof.
  rewrite Main_reading. destruct (xml !! "index.xml") as [[|]|]; [|done..].
  simpl. apply writes_run_trace.
Qed.

(** C10. An entry of the index is skipped exactly when its identity key
    is empty. A loaded compound has the identity key and the kind of its
    entry, and its identity key as display name when the entry has no name
    element or an empty one. So after a run every compound of the catalog,
    and with it every compound listed in an index page, has a non-empty
    identity key, and no file named by the empty key is written. *)
Theorem empty_refid_skipped
    (xml : gmap string xml_file) (out : option (gmap string string))
    (entry : Element) :
  let st := (Main xml out).2 in
  (index_entry entry = None ↔ ET.get entry "refid" "" = "")
  ∧ (∀ c, index_entry entry = Some c →
       refid c = ET.get entry "refid" "" ∧ refid c ≠ ""
       ∧ kind c = ET.get entry "kind" ""
       ∧ (match ET.find entry "name" with
          | None => True
          | Some n => Py.truthy_opt (text n) = false
          end → name c = refid c))
  ∧ Forall (λ c, refid c ≠ "") (compounds st)
  ∧ Forall (λ c, refid c ≠ "")
      (namespaces_of (compounds st) ++ types_of (compounds st)
       ++ files_of (compounds st))
  ∧ Forall (λ w, w.1 ≠ ".md") (writes (trace st)).
Proof.
  intros st.
  assert (Forall (λ c, refid c ≠ "") (compounds st)) as Hcs.
  { subst st. rewrite compounds_Main.
    destruct (xml !! "index.xml") as [[root|]|]; [|constructor..].
    apply catalog_refids. }
  split_and!.
  - apply index_entry_None.
  - apply index_entry_Some.
  - exact Hcs.
  - unfold namespaces_of, types_of, files_of.
    rewrite !Forall_app, !sorted_by_name_perm.
    split_and!; apply Forall_forall; intros c [_ Hc]%list_elem_of_filter;
      by eapply Forall_forall in Hcs.
  - subst st. rewrite writes_Main. rewrite compounds_Main in Hcs.
    destruct (xml !! "index.xml") as [[root|]|]; [|constructor..].
    unfold run_writes.
    pose proof (page_writes_files xml (catalog root)) as Hp.
    assert (Forall (λ w, w.1 ≠ ".md") (page_writes xml (catalog root)).1) as Hp'.
    { eapply Forall_impl; [exact Hp|]. intros w (c & Hin & ->).
      apply page_file_not_bare. by eapply Forall_forall in Hcs. }
    destruct (page_writes xml (catalog root)) as [ws [[]|e]]; simpl in *; [|done].
    apply Forall_app. split; [done|]. by repeat constructor.
Qed.

End Catalog.

Example scenario_catalog :
  compounds (Main (H := Sample.ascii_title) Sample.xml None).2
  = [mkCompound "n1" "namespace" "Widgets";
     mkCompound "t1" "class" "Widgets::Gear";
     mkCompound "x9" "file" "x9"].
Proof. by vm_compute. Qed.

(** ** Running twice *)

Section Determinism.
Context `{!StrTitle}.

(** Pages are written in catalog order, up to the first one that raises. *)
Lemma page_writes_order xml cs :
  map fst (page_writes xml cs).1 `prefix_of` map page_file (renderable cs)
  ∧ ((page_writes xml cs).2 = Ok () →
     map fst (page_writes xml cs).1 = map page_file (renderable cs)).
Proof.
  unfold renderable. induction cs as [|c cs [IHp IHe]]; [done|].
  simpl. rewrite filter_cons. case_bool_decide as Hk.
  - rewrite decide_True by done.
    destruct (page xml c) as [content|e]; simpl.
    + destruct (page_writes xml cs) as [ws r]. simpl in *. split.
      * by apply prefix_cons.
      * intros Hr. f_equal. by apply IHe.
    + split; [apply prefix_nil|done].
  - by rewrite decide_False by done.
Qed.

Lemma run_writes_order xml cs :
  map fst (run_writes xml cs).1
    `prefix_of` map page_file (renderable cs) ++ map fst (index_writes cs)
  ∧ ((run_writes xml cs).2 = Ok () →
     map fst (run_writes xml cs).1
     = map page_file (renderable cs)
       ++ ["index.md"; "namespaces.md"; "types.md"; "files.md"]).
Proof.
  unfold run_writes. destruct (page_writes_order xml cs) as [Hp He].
  destruct (page_writes xml cs) as [ws [[]|e]]; simpl in *.
  - rewrite map_app, He by done. done.
  - split; [|done]. by apply prefix_app_r.
Qed.

(** C9. The result of a run, its catalog and the files it writes with
    their contents depend on the input directory only, not on what the
    output directory held before; a second run over the output of the first
    ends the same way and leaves the same output directory. The files are
    written in catalog order, pages first and the four index files last,
    and each index list is the catalog's compounds of its kinds in
    non-decreasing order of display name, equal names in catalog order. *)
Theorem rerun_same_output
    (xml : gmap string xml_file) (out out' : option (gmap string string)) :
  let first := Main xml out in
  let other := Main xml out' in
  let again := Main xml (out_dir first.2) in
  (other.1 = first.1 ∧ compounds other.2 = compounds first.2
   ∧ writes (trace other.2) = writes (trace first.2))
  ∧ (again.1 = first.1 ∧ out_dir again.2 = out_dir first.2
     ∧ writes (trace again.2) = writes (trace first.2))
  ∧ xml_dir first.2 = xml
  ∧ map fst (writes (trace first.2))
      `prefix_of` map page_file (renderable (compounds first.2))
                  ++ map fst (index_writes (compounds first.2))
  ∧ (first.1 = Ok () →
     map fst (writes (trace first.2))
     = map page_file (renderable (compounds first.2))
       ++ ["index.md"; "namespaces.md"; "types.md"; "files.md"]
     ∧ out_dir first.2 = Some (write_all ∅ (writes (trace first.2))))
  ∧ ∀ cs,
      (StronglySorted name_le (namespaces_of cs)
       ∧ namespaces_of cs ≡ₚ filter (λ c, kind c = "namespace") cs)
      ∧ (StronglySorted name_le (types_of cs)
         ∧ types_of cs ≡ₚ filter (λ c, kind c ∈ type_kinds) cs)
      ∧ (StronglySorted name_le (files_of cs)
         ∧ files_of cs ≡ₚ filter (λ c, kind c = "file") cs)
      ∧ ∀ n l, filter (λ d, name d = n) (sorted_by_name l)
               = filter (λ d, name d = n) l.
Proof.
  intros first other again.
  assert (again.1 = first.1 ∧ out_dir again.2 = out_dir first.2
          ∧ writes (trace again.2) = writes (trace first.2)) as Hagain.
  { subst again first. rewrite !writes_Main.
    rewrite (Main_reading xml (out_dir _)), (Main_reading xml out).
    by destruct (xml !! "index.xml") as [[root|]|]. }
  split_and!; try apply Hagain.
  - subst other first. rewrite !Main_reading.
    by destruct (xml !! "index.xml") as [[root|]|].
  - subst other first. by rewrite !compounds_Main.
  - subst other first. by rewrite !writes_Main.
  - subst first. rewrite Main_reading.
    by destruct (xml !! "index.xml") as [[root|]|].
  - subst first. rewrite writes_Main, compounds_Main.
    destruct (xml !! "index.xml") as [[root|]|]; [|apply prefix_nil..].
    apply run_writes_order.
  - subst first. rewrite writes_Main, compounds_Main, Main_reading.
    destruct (xml !! "index.xml") as [[root|]|]; [|done..]. simpl.
    intros Hok. split; [by apply run_writes_order|done].
  - intros cs. unfold namespaces_of, types_of, files_of.
    split_and!; try apply sorted_by_name_sorted; try apply sorted_by_name_perm.
    apply sorted_by_name_stable.
Qed.

End Determinism.

Example scenario_files :
  map fst (writes (trace (Main (H := Sample.ascii_title) Sample.xml None).2))
  = ["n1.md"; "t1.md"; "x9.md"; "index.md"; "namespaces.md"; "types.md"; "files.md"].
Proof. by vm_compute. Qed.

Example scenario_types_index :
  (write_all ∅ (writes (trace (Main (H := Sample.ascii_title) Sample.xml None).2)))
    !! "types.md"
  = Some ("# Types" +:+ Py.nl +:+ Py.nl +:+ "- [Widgets::Gear](t1.md)" +:+ Py.nl).
Proof. by vm_compute. Qed.

(** ** The output directory after a run *)



Section OutputDirectory.
Context `{!StrTitle}.


(** X2. After a run that ends well the four index files hold the index pages,
    also when a compound of the catalog is named like one of them. *)
Theorem index_files_hold_indexes
    (xml : gmap string xml_file) (out : option (gmap string string)) :
  (Main xml out).1 = Ok () →
  ∃ files,
    out_dir (Main xml out).2 = Some files
    ∧ files !! "index.md" = Some (index_content (compounds (Main xml out).2))
    ∧ files !! "namespaces.md" = Some (namespaces_content (compounds (Main xml out).2))
    ∧ files !! "types.md" = Some (types_content (compounds (Main xml out).2))
    ∧ files !! "files.md" = Some (files_content (compounds (Main xml out).2)).
Proof.
  rewrite Main_reading.
  destruct (xml !! "index.xml") as [[root|]|]; simpl; [|done..].
  unfold run_writes.
  destruct (page_writes xml (catalog root)) as [ws [[]|e]]; simpl; [|done].
  intros _. eexists. split; [done|].
  unfold write_all. rewrite foldl_app. simpl.
  split_and!.
  - by rewrite !lookup_insert_ne, lookup_insert_eq by done.
  - by rewrite !lookup_insert_ne, lookup_insert_eq by done.
  - by rewrite lookup_insert_ne, lookup_insert_eq by done.
  - by rewrite lookup_insert_eq.
Qed.

Lemma page_writes_pages xml cs :
  Forall (λ w, ∃ c, c ∈ cs ∧ kind c ∈ page_kinds
                    ∧ w.1 = page_file c ∧ page xml c = Ok w.2)
         (page_writes xml cs).1.
Proof.
  induction cs as [|c cs IH]; [constructor|]. simpl.
  assert (Forall (λ w, ∃ c', c' ∈ c :: cs ∧ kind c' ∈ page_kinds
                             ∧ w.1 = page_file c' ∧ page xml c' = Ok w.2)
                 (page_writes xml cs).1) as IH'.
  { eapply Forall_impl; [exact IH|]. intros w (c' & Hin & Hrest).
    exists c'. split; [by right|done]. }
  case_bool_decide as Hk; [|exact IH'].
  destruct (page xml c) as [content|e] eqn:Ec; [|constructor].
  destruct (page_writes xml cs) as [ws r]. simpl in *.
  constructor; [|exact IH']. exists c. split; [by left|done].
Qed.

(** X3. A run writes nothing but the page of a compound of the catalog whose
    kind gets a page, under the compound's identity key and with the content
    [_RenderCompound] returns for it, and the four index pages. *)
Theorem written_files_are_pages_or_indexes
    (xml : gmap string xml_file) (out : option (gmap string string)) :
  Forall (λ w, w ∈ index_writes (compounds (Main xml out).2)
               ∨ ∃ c, c ∈ compounds (Main xml out).2 ∧ kind c ∈ page_kinds
                      ∧ w.1 = page_file c ∧ page xml c = Ok w.2)
         (writes (trace (Main xml out).2)).
Proof.
  rewrite writes_Main, compounds_Main.
  destruct (xml !! "index.xml") as [[root|]|]; [|constructor..].
  unfold run_writes. pose proof (page_writes_pages xml (catalog root)) as Hp.
  assert (Forall (λ w, w ∈ index_writes (catalog root)
                       ∨ ∃ c, c ∈ catalog root ∧ kind c ∈ page_kinds
                              ∧ w.1 = page_file c ∧ page xml c = Ok w.2)
                 (page_writes xml (catalog root)).1) as Hp'.
  { eapply Forall_impl; [exact Hp|]. intros w Hw. by right. }
  destruct (page_writes xml (catalog root)) as [ws [[]|e]]; simpl in *; [|done].
  apply Forall_app. split; [done|].
  apply Forall_forall. intros w Hw. by left.
Qed.

(** X4. Once the index is loaded, the output directory is prepared once and
    before the first write: the old directory is removed exactly when there
    was one, the new one is created, and only writes follow. *)
Theorem prepared_before_writes
    (xml : gmap string xml_file) (out : option (gmap string string)) (root : Element) :
  xml !! "index.xml" = Some (Parsed root) →
  trace (Main xml out).2
  = (match out with Some _ => [EvRmtree; EvMkdir] | None => [EvMkdir] end)
    ++ map write_event (writes (trace (Main xml out).2)).
Proof.
  intros E. rewrite writes_Main, Main_reading, E. simpl.
  unfold prepare_events. by destruct out.
Qed.

End OutputDirectory.


Lemma index_files_hold_indexes_witness :
  ∃ files,
    out_dir (Main (H := Sample.ascii_title) Sample.xml None).2 = Some files
    ∧ files !! "files.md"
      = Some (files_content (compounds (Main (H := Sample.ascii_title) Sample.xml None).2)).
Proof.
  assert ((Main (H := Sample.ascii_title) Sample.xml None).1 = Ok ()) as E
    by (by vm_compute).
  destruct (index_files_hold_indexes (H := Sample.ascii_title) Sample.xml None E)
    as (files & Hout & _ & _ & _ & Hfiles).
  exists files. split; [exact Hout|exact Hfiles].
Defined.

Lemma prepared_before_writes_witness :
  trace (Main (H := Sample.ascii_title) Sample.xml (Some ∅)).2
  = [EvRmtree; EvMkdir]
    ++ map write_event
         (writes (trace (Main (H := Sample.ascii_title) Sample.xml (Some ∅)).2)).
Proof.
  assert (Sample.xml !! "index.xml" = Some (Parsed Sample.index_root)) as E
    by (by vm_compute).
  exact (prepared_before_writes (H := Sample.ascii_title) Sample.xml (Some ∅) _ E).
Defined.

(** ** Index lists and pages *)

Section IndexLists.
Context `{!StrTitle}.

Lemma page_kinds_split k :
  k ∈ page_kinds ↔ k = "namespace" ∨ k ∈ type_kinds ∨ k = "file".
Proof.
  unfold page_kinds, type_kinds.
  rewrite !elem_of_union, !elem_of_singleton. tauto.
Qed.

Lemma namespace_not_type : "namespace" ∉ type_kinds.
Proof. by vm_compute. Qed.

Lemma file_not_type : "file" ∉ type_kinds.
Proof. by vm_compute. Qed.

Lemma kind_filters_partition cs :
  filter (λ c, kind c = "namespace") cs
  ++ filter (λ c, kind c ∈ type_kinds) cs
  ++ filter (λ c, kind c = "file") cs
  ≡ₚ renderable cs.
Proof.
  unfold renderable. induction cs as [|c cs IH]; [done|].
  rewrite !filter_cons.
  destruct (decide (kind c = "namespace")) as [Hn|Hn].
  { rewrite decide_False by (rewrite Hn; apply namespace_not_type).
    rewrite decide_False by (by rewrite Hn).
    rewrite decide_True by (apply page_kinds_split; by left).
    simpl. by rewrite IH. }
  destruct (decide (kind c ∈ type_kinds)) as [Ht|Ht].
  { rewrite decide_False by (intros Hf; rewrite Hf in Ht; by apply file_not_type).
    rewrite decide_True by (apply page_kinds_split; right; by left).
    simpl. by rewrite <- Permutation_middle, IH. }
  destruct (decide (kind c = "file")) as [Hf|Hf].
  { rewrite decide_True by (apply page_kinds_split; right; by right).
    by rewrite (app_assoc _ _ (c :: _)), <- Permutation_middle, <- app_assoc, IH. }
  rewrite decide_False; [exact IH|].
  intros [?|[?|?]]%page_kinds_split; done.
Qed.

(** X5. The three index lists together are the compounds that get a page, each
    once: every page is linked from one list, and the three counts of the
    overview add up to the number of pages. *)
Theorem index_lists_partition (cs : list Compound) :
  namespaces_of cs ++ types_of cs ++ files_of cs ≡ₚ renderable cs
  ∧ length (namespaces_of cs) + length (types_of cs) + length (files_of cs)
    = length (renderable cs).
Proof.
  assert (namespaces_of cs ++ types_of cs ++ files_of cs ≡ₚ renderable cs) as Hp.
  { unfold namespaces_of, types_of, files_of.
    rewrite !sorted_by_name_perm. apply kind_filters_partition. }
  split; [exact Hp|].
  apply Permutation_length in Hp. rewrite !length_app in Hp. lia.
Qed.


End IndexLists.


(** ** Records and indexes that cannot be parsed *)

Section ParseFailures.
Context `{!StrTitle}.

(** X7. When the index exists but cannot be parsed, the run raises and leaves
    the state as it found it, as for a missing index. *)
Theorem unparsable_index_aborts (st : State) :
  xml_dir st !! "index.xml" = Some Unparsable →
  Run st = (Raise (ParseError "index.xml"), st).
Proof.
  intros E. unfold Run, LoadIndex, mbind, M_bind, xml_exists, gets, parse. simpl.
  rewrite E. simpl. by rewrite E.
Qed.



End ParseFailures.

Lemma unparsable_index_aborts_witness :
  let st := mkState [] Sample.broken_index (Some {[ "old.md" := "kept" ]}) [] in
  Run (H := Sample.ascii_title) st = (Raise (ParseError "index.xml"), st).
Proof.
  intros st.
  exact (unparsable_index_aborts (H := Sample.ascii_title) st eq_refl).
Defined.


(** ** Cards, sections and descriptions that render nothing *)

Lemma join_head_empty sep x l : Py.join sep (x :: l) = "" → x = "".
Proof.
  destruct l as [|y l]; [by rewrite PyFacts.join_singleton|].
  rewrite PyFacts.join_cons. by intros [? _]%PyFacts.app_eq_empty.
Qed.

Lemma join_empty_nil sep l : Forall (λ x, x ≠ "") l → Py.join sep l = "" → l = [].
Proof.
  destruct 1 as [|x l Hx _]; [done|]. by intros ?%join_head_empty.
Qed.

Lemma filter_truthy_nonempty (l : list string) :
  Forall (λ x, x ≠ "") (filter (λ x, Py.truthy x) l).
Proof.
  apply Forall_forall. intros x [Hx _]%list_elem_of_filter.
  apply PyFacts.truthy_true. by destruct (Py.truthy x).
Qed.

Lemma filter_truthy_all (l : list string) :
  Forall (λ x, x ≠ "") l → filter (λ x, Py.truthy x) l = l.
Proof.
  induction 1 as [|x l Hx _ IH]; [done|].
  rewrite filter_cons, IH. apply PyFacts.truthy_true in Hx. by rewrite Hx.
Qed.

Lemma member_card_nonempty member : member_card member ≠ "".
Proof.
  unfold member_card. case_bool_decide;
    [apply RenderEnum_nonempty|apply RenderMember_nonempty].
Qed.

(** X9. Every member gets a card: [_RenderMembers] never finds an empty card to
    leave out, so it returns the cards of all members, one per member and in
    their order, and returns the empty string only for no members. *)
Theorem every_member_has_a_card (members : list Element) :
  RenderMembers members = Py.join Py.nl (map member_card members)
  ∧ Forall (λ member, member_card member ≠ "") members
  ∧ (RenderMembers members = "" ↔ members = []).
Proof.
  assert (Forall (λ x, x ≠ "") (map member_card members)) as Hall.
  { apply Forall_forall. intros x (m & -> & _)%list_elem_of_fmap.
    apply member_card_nonempty. }
  assert (RenderMembers members = Py.join Py.nl (map member_card members)) as Heq.
  { unfold RenderMembers. by rewrite filter_truthy_all. }
  split_and!.
  - exact Heq.
  - apply Forall_forall. intros m _. apply member_card_nonempty.
  - rewrite Heq. split.
    + intros Hj%join_empty_nil; [|exact Hall]. by destruct members.
    + by intros ->.
Qed.

Section EmptySections.
Context `{!StrTitle}.

Lemma section_parts_empty section :
  section_parts section = [] ↔ ET.findall section "memberdef" = [].
Proof.
  unfold section_parts.
  destruct (every_member_has_a_card (ET.findall section "memberdef"))
    as (_ & _ & Hiff).
  destruct (Py.truthy (RenderMembers (ET.findall section "memberdef"))) eqn:E.
  - apply PyFacts.truthy_true in E. split; [done|]. intros Hm. by apply Hiff in Hm.
  - apply PyFacts.truthy_false in E. split; [|done]. intros _. by apply Hiff.
Qed.

Lemma section_parts_head section :
  section_parts section = []
  ∨ ∃ rest, section_parts section
            = ("## " +:+ SectionTitle (ET.get section "kind" "")) :: "" :: rest.
Proof.
  unfold section_parts.
  destruct (Py.truthy _); [right; by eexists|by left].
Qed.

(** X10. A section appears in a page exactly when it has a member: a section
    without members leaves no heading, and the member sections of a page are
    empty exactly when no section of the compound has a member. *)
Theorem sections_without_members_omitted (compounddef section : Element) :
  (section_parts section = [] ↔ ET.findall section "memberdef" = [])
  ∧ (RenderSections compounddef = ""
     ↔ Forall (λ s, ET.findall s "memberdef" = [])
              (ET.findall compounddef "sectiondef")).
Proof.
  split; [apply section_parts_empty|].
  unfold RenderSections.
  induction (ET.findall compounddef "sectiondef") as [|s ss IH]; [done|].
  rewrite Forall_cons, map_cons.
  change (mjoin (section_parts s :: map section_parts ss))
    with (section_parts s ++ mjoin (map section_parts ss)).
  destruct (section_parts_head s) as [Hs|[rest Hs]].
  - rewrite Hs. simpl. rewrite IH.
    apply section_parts_empty in Hs. split; [by intros ?; split|by intros [_ ?]].
  - rewrite Hs. simpl.
    rewrite PyFacts.join_cons, !PyFacts.app_cons, PyFacts.strip_cons by done.
    split; [done|]. intros [Hm _]. apply section_parts_empty in Hm.
    by rewrite Hm in Hs.
Qed.

End EmptySections.

Lemma list_line_nonempty ordered idx t : list_line ordered idx t ≠ "".
Proof.
  unfold list_line. intros [_ Hr]%PyFacts.app_eq_empty. done.
Qed.

Lemma RenderList_empty elem ordered :
  RenderList elem ordered = "" ↔ ET.findall elem "listitem" = [].
Proof.
  unfold RenderList, list_lines.
  destruct (ET.findall elem "listitem") as [|item items]; [done|].
  split; [|done]. simpl. intros Hj%join_head_empty.
  by apply list_line_nonempty in Hj.
Qed.

(** X11. A list has one line per [listitem] child, in order, whatever else the
    list element holds; the line of the item at position [i] starts with a
    hyphen, or with the number [i + 1] and a full stop when the list is
    ordered; and the list renders as the empty string exactly when it has no
    item. *)
Theorem RenderList_lines (elem : Element) (ordered : bool) :
  let items := ET.findall elem "listitem" in
  let lines := list_lines ordered (map (λ item, Py.strip (RenderInline item)) items) in
  RenderList elem ordered = Py.join Py.nl lines
  ∧ length lines = length items
  ∧ (∀ i item, items !! i = Some item →
       lines !! i
       = Some ((if ordered then Py.str_of_nat (i + 1) +:+ "." else "-")
               +:+ " " +:+ Py.strip (RenderInline item)))
  ∧ (RenderList elem ordered = "" ↔ items = []).
Proof.
  intros items lines. split_and!.
  - reflexivity.
  - subst lines. unfold list_lines. by rewrite length_imap, length_map.
  - intros i item Hi. subst lines. unfold list_lines.
    rewrite list_lookup_imap, list_lookup_fmap, Hi. simpl.
    unfold list_line. by replace (i + 1) with (S i) by lia.
  - apply RenderList_empty.
Qed.

Lemma RenderProgramlisting_nonempty elem : RenderProgramlisting elem ≠ "".
Proof. unfold RenderProgramlisting. by rewrite PyFacts.app_cons. Qed.

Lemma filter_truthy_singleton x :
  filter (λ p, Py.truthy p) [x] = if Py.truthy x then [x] else [].
Proof. rewrite filter_cons, filter_nil. by destruct (Py.truthy x). Qed.

Lemma block_paragraphs_blank child :
  filter (λ p, Py.truthy p) (block_paragraphs child) = []
  ↔ blank_block child = true.
Proof.
  unfold block_paragraphs, blank_block.
  repeat case_bool_decide; destruct_or?; simplify_eq;
    rewrite ?filter_truthy_singleton; try done; try (exfalso; tauto).
  - destruct (Py.truthy (Py.strip (RenderInline child))) eqn:E; simpl; [|done].
    by rewrite filter_truthy_singleton, E.
  - pose proof (RenderList_empty child false) as Hl.
    destruct (ET.findall child "listitem"); [by rewrite (proj2 Hl eq_refl)|].
    destruct (Py.truthy (RenderList child false)) eqn:E; [done|].
    by apply PyFacts.truthy_false, Hl in E.
  - pose proof (RenderList_empty child false) as Hl.
    destruct (ET.findall child "listitem"); [by rewrite (proj2 Hl eq_refl)|].
    destruct (Py.truthy (RenderList child false)) eqn:E; [done|].
    by apply PyFacts.truthy_false, Hl in E.
  - pose proof (RenderList_empty child true) as Hl.
    destruct (ET.findall child "listitem"); [by rewrite (proj2 Hl eq_refl)|].
    destruct (Py.truthy (RenderList child true)) eqn:E; [done|].
    by apply PyFacts.truthy_false, Hl in E.
Qed.

(** X12. A description renders as the empty string exactly when it is absent or
    each of its blocks is blank: a paragraph with nothing left once trimmed,
    a list without items, or a block of a kind without branch. A code block
    is never blank, even without code lines. *)
Theorem RenderDescription_empty (elem : Element) :
  RenderDescription None = ""
  ∧ (RenderDescription (Some elem) = ""
     ↔ forallb blank_block (children elem) = true)
  ∧ ∀ listing, tag listing = "programlisting" → blank_block listing = false.
Proof.
  split_and!; [done| |].
  - unfold RenderDescription.
    transitivity (filter (λ p, Py.truthy p)
                    (mjoin (map block_paragraphs (children elem))) = []).
    { split; [|by intros ->].
      apply join_empty_nil, filter_truthy_nonempty. }
    induction (children elem) as [|c cs IH]; [done|].
    change (mjoin (map block_paragraphs (c :: cs)))
      with (block_paragraphs c ++ mjoin (map block_paragraphs cs)).
    rewrite filter_app. simpl forallb. rewrite andb_true_iff, <- IH.
    rewrite <- block_paragraphs_blank. apply app_nil.
  - intros listing Ht. unfold blank_block. rewrite Ht.
    rewrite bool_decide_eq_false_2 by done. by rewrite bool_decide_eq_true_2.
Qed.

(** ** Loading the catalog *)

Lemma catalog_refids_eq root :
  map refid (catalog root) = filter (λ r, Py.truthy r) (entry_refids root).
Proof.
  unfold catalog, entry_refids.
  induction (ET.findall root "compound") as [|entry entries IH]; [done|].
  rewrite map_cons, filter_cons. simpl omap.
  change (list_omap _ _ ?f ?l) with (omap f l).
  destruct (index_entry entry) as [c|] eqn:Hc.
  - apply index_entry_Some in Hc as (Hr & Hne & _).
    rewrite decide_True; [|rewrite <- Hr; by destruct (refid c)].
    rewrite map_cons, IH. by rewrite Hr.
  - apply index_entry_None in Hc. rewrite Hc, decide_False by (by intros []).
    exact IH.
Qed.

(** X13. [_LoadIndex] adds to the catalog one compound for each index entry with
    a non-empty identity key, in index order and with repeated keys kept; it
    adds them after the compounds the generator already holds, so loading the
    same index twice holds every compound twice. *)
Theorem LoadIndex_appends (st : State) (root : Element) :
  xml_dir st !! "index.xml" = Some (Parsed root) →
  LoadIndex st
  = (Ok (), mkState (compounds st ++ catalog root) (xml_dir st) (out_dir st) (trace st))
  ∧ (LoadIndex;; LoadIndex) st
    = (Ok (), mkState (compounds st ++ catalog root ++ catalog root)
                      (xml_dir st) (out_dir st) (trace st))
  ∧ map refid (catalog root) = filter (λ r, Py.truthy r) (entry_refids root).
Proof.
  intros E.
  assert (∀ st', xml_dir st' = xml_dir st →
            LoadIndex st'
            = (Ok (), mkState (compounds st' ++ catalog root) (xml_dir st')
                              (out_dir st') (trace st'))) as Hload.
  { intros st' Hx. unfold LoadIndex, mbind, M_bind, xml_exists, gets, parse, modify.
    simpl. rewrite Hx, E. simpl. rewrite ?Hx, ?E. unfold catalog. congruence. }
  split_and!.
  - by apply Hload.
  - unfold mbind, M_bind. rewrite (Hload st eq_refl), Hload by done.
    simpl. by rewrite <- app_assoc.
  - apply catalog_refids_eq.
Qed.

Lemma LoadIndex_appends_witness :
  map refid (catalog Sample.index_root) = ["n1"; "t1"; "x9"]
  ∧ (LoadIndex;; LoadIndex) (mkState [] Sample.xml None [])
    = (Ok (), mkState (catalog Sample.index_root ++ catalog Sample.index_root)
                      Sample.xml None []).
Proof.
  assert (xml_dir (mkState [] Sample.xml None []) !! "index.xml"
          = Some (Parsed Sample.index_root)) as E by (by vm_compute).
  destruct (LoadIndex_appends (mkState [] Sample.xml None []) Sample.index_root E)
    as (_ & Htwice & Hrefids).
  split; [by rewrite Hrefids|exact Htwice].
Defined.

(** ** Members without detailed description *)



(** ** The layout of a card *)

Lemma rstrip_visible s a t :
  Py.isspace a = false →
  Py.rstrip (s +:+ String a t) = s +:+ String a (Py.rstrip t).
Proof.
  intros Ha. induction s as [|b s IH].
  - rewrite !PyFacts.app_empty_l. by apply PyFacts.rstrip_cons.
  - rewrite !PyFacts.app_cons. simpl. rewrite IH.
    by destruct s.
Qed.

Lemma strip_heading s t :
  Py.strip (("### `" +:+ s +:+ "`") +:+ t)
  = ("### `" +:+ s +:+ "`") +:+ Py.rstrip t.
Proof.
  rewrite !PyFacts.app_assoc.
  change ("### `" +:+ s +:+ "`" +:+ t) with (String "#" ("## `" +:+ s +:+ String "`" t)).
  rewrite PyFacts.strip_cons by done.
  rewrite <- (PyFacts.app_assoc "## `" s), rstrip_visible by done.
  by rewrite PyFacts.app_assoc.
Qed.

Lemma WrapCard_heading s t :
  WrapCard (("### `" +:+ s +:+ "`") +:+ t)
  = card_open +:+ Py.nl +:+ ("### `" +:+ s +:+ "`") +:+ Py.rstrip t
    +:+ Py.nl +:+ "</div>".
Proof.
  unfold WrapCard.
  replace (Py.truthy (("### `" +:+ s +:+ "`") +:+ t)) with true
    by (by rewrite !PyFacts.app_cons).
  rewrite strip_heading, !PyFacts.join_cons, PyFacts.join_singleton.
  fold card_open. by rewrite !PyFacts.app_assoc.
Qed.

(** X15. A card is the opening line, the heading with the signature (or with
    [enum] and the name), the rest of the card, and the closing line: the
    trimming of [_RenderMember] and [_WrapCard] never reaches the heading. *)
Theorem card_layout (member : Element) :
  (∃ body, RenderMember member
           = card_open +:+ Py.nl +:+ member_heading member +:+ body
             +:+ Py.nl +:+ "</div>")
  ∧ (∃ body, RenderEnum member
             = card_open +:+ Py.nl
               +:+ ("### `enum " +:+ Py.strip (ET.findtext member "name" "") +:+ "`")
               +:+ body +:+ Py.nl +:+ "</div>").
Proof.
  split.
  - unfold RenderMember. destruct (member_parts_head member) as [rest ->].
    unfold member_heading. rewrite PyFacts.join_cons, strip_heading, WrapCard_heading.
    by eexists.
  - unfold RenderEnum, enum_parts.
    change (["### `enum " +:+ ?nm +:+ "`"; ""] ++ ?l)
      with (("### `" +:+ ("enum " +:+ nm) +:+ "`") :: "" :: l).
    rewrite PyFacts.join_cons, WrapCard_heading.
    match goal with |- context [Py.rstrip ?t] => exists (Py.rstrip t) end.
    reflexivity.
Qed.

(** ** Nested compounds and hollow records *)

Section Inner.
Context `{!StrTitle}.

Lemma strip_text o :
  (if Py.truthy_opt o then Py.strip (Py.or_empty o) else "") = Py.strip (Py.or_empty o).
Proof. by destruct o as [[|a tx]|]. Qed.

Lemma inner_lines_eq compounddef t label :
  inner_lines compounddef t label
  = map (inner_line label) (named_inner compounddef t).
Proof.
  unfold inner_lines, named_inner.
  induction (ET.findall compounddef t) as [|inner inners IH]; [done|].
  rewrite filter_cons. simpl omap. change (list_omap _ _ ?f ?l) with (omap f l).
  rewrite IH, strip_text.
  by destruct (Py.truthy (Py.strip (Py.or_empty (text inner)))).
Qed.

(** X16. The Contents list of a page has one line for each nested namespace
    and then one for each nested type, in document order, leaving out those
    whose name is blank; it is empty exactly when all of them are. *)
Theorem RenderInner_lines (compounddef : Element) :
  RenderInner compounddef
  = Py.join Py.nl
      (map (inner_line "Namespace") (named_inner compounddef "innernamespace")
       ++ map (inner_line "Type") (named_inner compounddef "innerclass"))
  ∧ (RenderInner compounddef = ""
     ↔ named_inner compounddef "innernamespace" = []
       ∧ named_inner compounddef "innerclass" = []).
Proof.
  assert (RenderInner compounddef
          = Py.join Py.nl
              (map (inner_line "Namespace") (named_inner compounddef "innernamespace")
               ++ map (inner_line "Type") (named_inner compounddef "innerclass")))
    as Heq.
  { unfold RenderInner. by rewrite !inner_lines_eq. }
  split; [exact Heq|]. rewrite Heq. split.
  - intros Hj. apply join_empty_nil in Hj.
    + apply app_nil in Hj as [Hn Ht]. split; by eapply fmap_nil_inv.
    + apply Forall_app. split; apply Forall_forall;
        intros x (inner & -> & _)%list_elem_of_fmap; by unfold inner_line.
  - by intros [-> ->].
Qed.

(** X17. A record without definition node gives the page that says so, without
    raising and without change of state. *)
Theorem hollow_record_page (compound : Compound) (st : State) (root : Element) :
  xml_dir st !! (refid compound +:+ ".xml") = Some (Parsed root) →
  ET.find root "compounddef" = None →
  RenderCompound compound st
  = (Ok ("# " +:+ name compound +:+ Py.nl +:+ Py.nl
         +:+ "_Empty compound definition._" +:+ Py.nl), st).
Proof.
  intros E Hdef. by rewrite RenderCompound_reads, page_cases, E, Hdef.
Qed.

End Inner.

Lemma hollow_record_page_witness :
  let t1 := mkCompound "t1" "class" "Widgets::Gear" in
  let st := mkState [] Sample.hollow (Some ∅) [] in
  RenderCompound (H := Sample.ascii_title) t1 st
  = (Ok ("# Widgets::Gear" +:+ Py.nl +:+ Py.nl
         +:+ "_Empty compound definition._" +:+ Py.nl), st).
Proof.
  intros t1 st.
  assert (xml_dir st !! (refid t1 +:+ ".xml") = Some (Parsed Sample.hollow_record)) as E
    by (by vm_compute).
  exact (hollow_record_page (H := Sample.ascii_title) t1 st _ E eq_refl).
Defined.
